(** * Model lifecycle and vector collection services

    A shallow embedding of [services/ai/app/services/model_service.py]
    ([ModelService]) with the classes of [services/ai/app/models/model.py],
    and of [services/ai/app/services/vector_db.py] ([VectorDBService]) with
    the classes of [services/ai/app/models/vector.py].

    - Python dictionaries whose iteration order is observable
      ([ModelService.models]) are insertion-ordered association lists
      ([PyDict]); the handle cache, whose order is never observed, is a
      [gmap].
    - The public methods are [try: ... except Exception] blocks returning a
      tuple.  Code that can raise runs in the state-and-exception monad
      [Prog]; an [except] clause is [try_except], or [try_catch] when the
      handler itself can raise.
    - [ModelService] was written against descriptor and request classes
      with more attributes than [models/model.py] declares.  The embedding
      follows the declared classes: reading an attribute a class does not
      declare, assigning a field a pydantic model does not declare, naming a
      member the enumeration does not have and constructing a model without
      a required field raise, as they do in Python.  The words of these
      exceptions are parameters ([PyRuntime]).
    - The provider libraries and the vector store are external: they are
      interfaces ([ProviderBackend], [VectorStoreBackend],
      [VectorStoreAdmin]) whose every operation may return or raise.  Each
      call is recorded in a call log, which is how "the backend was (not)
      called" is stated.
    - Floating-point numbers (vector components, scores, sampling
      parameters) are only stored and passed on by both services; they are
      primitive floats and no property depends on their arithmetic.
    - Logging is left out, except where evaluating the arguments of a log
      call can raise. *)

From Stdlib Require Import Floats.PrimFloat.
From stdpp Require Import base option list strings pretty gmap.

Open Scope string_scope.

(** ** Python dictionaries with insertion order *)

Module PyDict.
Section Dict.
Context {V : Type}.

Definition t := list (string * V).

Definition empty : t := [].

(** [d.get(k)] *)
Fixpoint get (k : string) (d : t) : option V :=
  match d with
  | [] => None
  | (k', v) :: d' => if decide (k' = k) then Some v else get k d'
  end.

(** [k in d] *)
Definition mem (k : string) (d : t) : bool :=
  match get k d with Some _ => true | None => false end.

(** [d[k] = v]: an existing key keeps its position, a new key goes last. *)
Fixpoint set (k : string) (v : V) (d : t) : t :=
  match d with
  | [] => [(k, v)]
  | (k', v') :: d' =>
      if decide (k' = k) then (k, v) :: d' else (k', v') :: set k v d'
  end.

(** [del d[k]] (the callers test membership first). *)
Fixpoint del (k : string) (d : t) : t :=
  match d with
  | [] => []
  | (k', v) :: d' => if decide (k' = k) then del k d' else (k', v) :: del k d'
  end.

Definition keys (d : t) : list string := d.*1.
Definition values (d : t) : list V := d.*2.

(** [for k, v in d.items(): v = f k v], for a loop that mutates the values
    in place and leaves the keys alone. *)
Definition map_items (f : string -> V -> V) (d : t) : t :=
  List.map (fun kv => (kv.1, f kv.1 kv.2)) d.
End Dict.
Arguments t : clear implicits.
End PyDict.

(** ** Results of calls that may raise, and the monad of the methods *)

Inductive Outcome (A : Type) : Type :=
  | Returned (a : A)
  | Raised (e : string).
Arguments Returned {A} a.
Arguments Raised {A} e.

(** A computation on a state [S] that returns or raises; what it wrote
    before raising stays written, as in Python. *)
Definition Prog (S A : Type) : Type := S -> Outcome A * S.

Definition ret {S A : Type} (a : A) : Prog S A := fun s => (Returned a, s).

Definition raise {S A : Type} (e : string) : Prog S A := fun s => (Raised e, s).

Definition bind {S A B : Type} (m : Prog S A) (k : A -> Prog S B) : Prog S B :=
  fun s =>
    match m s with
    | (Returned a, s') => k a s'
    | (Raised e, s') => (Raised e, s')
    end.

Definition gets {S A : Type} (f : S -> A) : Prog S A := fun s => (Returned (f s), s).

Definition modify {S : Type} (f : S -> S) : Prog S unit := fun s => (Returned tt, f s).

(** A method that cannot raise, called from one that can. *)
Definition lift {S A : Type} (f : S -> A * S) : Prog S A :=
  fun s => let '(a, s') := f s in (Returned a, s').

(** [try: body  except Exception as e: return handler(str(e))] *)
Definition try_except {S A : Type} (body : Prog S A) (handler : string -> A)
    : S -> A * S :=
  fun s =>
    match body s with
    | (Returned a, s') => (a, s')
    | (Raised e, s') => (handler e, s')
    end.

(** The same block when the handler runs code that can raise: what the
    handler raises leaves the method. *)
Definition try_catch {S A : Type} (body : Prog S A) (handler : string -> Prog S A)
    : Prog S A :=
  fun s =>
    match body s with
    | (Returned a, s') => (Returned a, s')
    | (Raised e, s') => handler e s'
    end.

Declare Scope prog_scope.
Delimit Scope prog_scope with prog.
Notation "'let*' x ':=' m 'in' k" := (bind m (fun x => k))
  (at level 10, x pattern, m at level 100, k at level 200) : prog_scope.

(** ** Data model of the model service ([app/models/model.py]) *)

Inductive ModelProvider := OPENAI | HUGGINGFACE | OLLAMA | CUSTOM.

#[global] Instance ModelProvider_eq_dec : EqDecision ModelProvider.
Proof. solve_decision. Defined.

(** [provider.value] *)
Definition provider_value (p : ModelProvider) : string :=
  match p with
  | OPENAI => "openai"
  | HUGGINGFACE => "huggingface"
  | OLLAMA => "ollama"
  | CUSTOM => "custom"
  end.

(** [ModelProvider.<member>]: the member of that name, when the enumeration
    declares one. *)
Definition ModelProvider_member (member : string) : option ModelProvider :=
  if decide (member = "OPENAI") then Some OPENAI
  else if decide (member = "HUGGINGFACE") then Some HUGGINGFACE
  else if decide (member = "OLLAMA") then Some OLLAMA
  else if decide (member = "CUSTOM") then Some CUSTOM
  else None.

(** The descriptor stored in [ModelService.models]: a pydantic model with
    the fields [name], [provider], [model_id] (required), [parameters] and
    [enabled], and no other attribute. *)
Record ModelConfigModel := mkModelConfig {
  name : string;
  provider : ModelProvider;
  model_id : string;
  parameters : gmap string string;
  enabled : bool
}.

(** [config.provider = p], an assignment to a declared field. *)
Definition set_provider (p : ModelProvider) (c : ModelConfigModel) :=
  mkModelConfig (name c) p (model_id c) (parameters c) (enabled c).

(** The request of [register_model]: a pydantic model whose only field is
    [config]. *)
Record RegisterModelRequestModel := mkRegisterRequest {
  reg_config : ModelConfigModel
}.

(** Modelled from the spec: the request of [update_model]; the models file
    declares no class of this name.  Every field but the name is optional
    ([if request.f is not None]). *)
Record UpdateModelRequestModel := mkUpdateRequest {
  upd_name : string;
  upd_provider : option ModelProvider;
  upd_model_path : option string;
  upd_model_type : option string;
  upd_description : option string;
  upd_is_default : option bool;
  upd_config : option (gmap string string)
}.

(** An opaque object created by a provider library. *)
Definition Obj := nat.

(** What [loaded_models] can hold: the dict built by
    [_load_huggingface_model], the string ["openai"], or a
    [SentenceTransformer] object. *)
Inductive Handle :=
  | HFHandle (tokenizer model : Obj)
  | OpenAIHandle
  | STHandle (model : Obj).

Record ModelService := mkModelService {
  models : PyDict.t ModelConfigModel;
  loaded_models : gmap string Handle;
  openai_client : bool
}.

Definition set_models (d : PyDict.t ModelConfigModel) (s : ModelService) :=
  mkModelService d (loaded_models s) (openai_client s).
Definition set_loaded_models (l : gmap string Handle) (s : ModelService) :=
  mkModelService (models s) l (openai_client s).

(** [ModelService.__init__]: [has_key] says whether [settings.openai_api_key]
    is set. *)
Definition init_model_service (has_key : bool) : ModelService :=
  mkModelService PyDict.empty ∅ has_key.

(** ** What the interpreter and pydantic raise

    The words of the exceptions ([str(e)]) for an attribute that an object
    of a class does not have, for a member that an enumeration does not
    have, for an assignment to a field that a pydantic model does not
    declare, and for a constructor call that leaves required fields out.
    They are the interpreter's and the library's, and they end up in the
    messages the methods return. *)
Class PyRuntime := {
  no_attribute : string -> string -> string;
  no_member : string -> string -> string;
  no_field : string -> string -> string;
  missing_fields : string -> list string -> string
}.

Section Undeclared.
Context `{PyRuntime} {S : Type}.

(** [obj.attr] where the class [cls] of [obj] declares no [attr]. *)
Definition read_undeclared {A : Type} (cls attr : string) : Prog S A :=
  raise (no_attribute cls attr).

(** [obj.field = v] where the pydantic model [cls] declares no [field]. *)
Definition assign_undeclared (cls field : string) : Prog S unit :=
  raise (no_field cls field).

(** [cls(...)] without the required fields [missing]. *)
Definition construct_without {A : Type} (cls : string) (missing : list string)
    : Prog S A :=
  raise (missing_fields cls missing).

(** [ModelProvider.<member>] *)
Definition enum_member (member : string) : Prog S ModelProvider :=
  match ModelProvider_member member with
  | Some p => ret p
  | None => raise (no_member "ModelProvider" member)
  end.

(** [x = d[k]], which raises [KeyError(k)] on a missing key. *)
Definition subscript {A : Type} (o : option A) (k : string) : Prog S A :=
  match o with
  | Some a => ret a
  | None => raise ("'" +:+ k +:+ "'")
  end.

(** [if x is not None: body(x)] *)
Definition when_given {A : Type} (o : option A) (body : A -> Prog S unit)
    : Prog S unit :=
  match o with
  | Some a => body a
  | None => ret tt
  end.
End Undeclared.

(** ** The registry half of [ModelService] *)

Definition unload_model (n : string) (s : ModelService)
    : (bool * string) * ModelService :=
  match loaded_models s !! n with
  | None => ((true, "Model " +:+ n +:+ " not loaded"), s)
  | Some _ =>
      ((true, "Model " +:+ n +:+ " unloaded successfully"),
       set_loaded_models (delete n (loaded_models s)) s)
  end.

Definition unregister_model (n : string) (s : ModelService)
    : (bool * string) * ModelService :=
  if negb (PyDict.mem n (models s)) then
    ((false, "Model " +:+ n +:+ " not found"), s)
  else
    let s := if bool_decide (is_Some (loaded_models s !! n))
             then (unload_model n s).2 else s in
    ((true, "Model " +:+ n +:+ " unregistered successfully"),
     set_models (PyDict.del n (models s)) s).

Definition list_models (s : ModelService) : list ModelConfigModel :=
  PyDict.values (models s).

Definition get_model (n : string) (s : ModelService) : option ModelConfigModel :=
  PyDict.get n (models s).

Definition is_model_loaded (n : string) (s : ModelService) : bool :=
  bool_decide (is_Some (loaded_models s !! n)).

Section Registry.
Context `{PyRuntime}.
Local Open Scope prog_scope.

(** [request.<attr>] for a [RegisterModelRequestModel] and an attribute
    other than [config]. *)
Definition request_attr {A : Type} (attr : string) : Prog ModelService A :=
  read_undeclared "RegisterModelRequestModel" attr.

(** The loop
    [for name, config in self.models.items():
         if name != request.name: config.is_default = False];
    [keep] is the expression [request.name], evaluated in every round. *)
Fixpoint clear_other_defaults (keep : Prog ModelService string)
    (items : list (string * ModelConfigModel)) : Prog ModelService unit :=
  match items with
  | [] => ret tt
  | (n, _) :: rest =>
      let* k := keep in
      let* _ := (if decide (n <> k)
                 then assign_undeclared "ModelConfigModel" "is_default"
                 else ret tt) in
      clear_other_defaults keep rest
  end.

(** [register_model]: every [request.name], [request.provider], ... is a read
    of an attribute the request class does not declare, the first of them in
    the first statement of the [try] block; the [except] clause logs
    [request.name] before it returns. *)
Definition register_model (request : RegisterModelRequestModel)
    : Prog ModelService (bool * string) :=
  try_catch
    (let* (n : string) := request_attr "name" in
     let* s := gets (fun s => s) in
     if PyDict.mem n (models s) then
       let* (n : string) := request_attr "name" in
       ret (false, "Model " +:+ n +:+ " already registered")
     else
       let* (n : string) := request_attr "name" in
       let* (p : ModelProvider) := request_attr "provider" in
       let* (model_path : string) := request_attr "model_path" in
       let* (model_type : string) := request_attr "model_type" in
       let* (description : string) := request_attr "description" in
       let* (is_default : bool) := request_attr "is_default" in
       let config := reg_config request in
       let* (model_config : ModelConfigModel) :=
         construct_without "ModelConfigModel" ["model_id"] in
       let* (n : string) := request_attr "name" in
       let* _ := modify (fun s => set_models (PyDict.set n model_config (models s)) s) in
       let* (is_default : bool) := request_attr "is_default" in
       let* _ := (if is_default
                  then let* s := gets (fun s => s) in
                       clear_other_defaults (request_attr "name") (models s)
                  else ret tt) in
       let* (n : string) := request_attr "name" in
       let* (p : ModelProvider) := request_attr "provider" in
       let* (n : string) := request_attr "name" in
       ret (true, "Model " +:+ n +:+ " registered successfully"))
    (fun e =>
       let* (n : string) := request_attr "name" in
       ret (false, "Failed to register model: " +:+ e)).

(** [model_config.provider = p] for the descriptor stored under [n]: the
    assignment goes to the object the dictionary holds. *)
Definition assign_provider (n : string) (p : ModelProvider) (s : ModelService)
    : ModelService :=
  match PyDict.get n (models s) with
  | Some model_config =>
      set_models (PyDict.set n (set_provider p model_config) (models s)) s
  | None => s
  end.

Definition update_model (request : UpdateModelRequestModel)
    : ModelService -> (bool * string) * ModelService :=
  let n := upd_name request in
  try_except
    (let* s := gets (fun s => s) in
     if negb (PyDict.mem n (models s)) then
       ret (false, "Model " +:+ n +:+ " not found")
     else
       let* model_config := subscript (PyDict.get n (models s)) n in
       let* _ := when_given (upd_provider request)
                   (fun p => modify (assign_provider n p)) in
       let* _ := when_given (upd_model_path request)
                   (fun _ => assign_undeclared "ModelConfigModel" "model_path") in
       let* _ := when_given (upd_model_type request)
                   (fun _ => assign_undeclared "ModelConfigModel" "model_type") in
       let* _ := when_given (upd_description request)
                   (fun _ => assign_undeclared "ModelConfigModel" "description") in
       let* _ := when_given (upd_is_default request)
                   (fun is_default =>
                      let* _ := assign_undeclared "ModelConfigModel" "is_default" in
                      if is_default : bool
                      then let* s := gets (fun s => s) in
                           clear_other_defaults (ret n) (models s)
                      else ret tt) in
       let* _ := when_given (upd_config request)
                   (fun _ =>
                      let* (config : gmap string string) :=
                        read_undeclared "ModelConfigModel" "config" in
                      ret tt) in
       let* s := gets (fun s => s) in
       let* _ := (if is_model_loaded n s
                  then let* _ := lift (unload_model n) in ret tt
                  else ret tt) in
       ret (true, "Model " +:+ n +:+ " updated successfully"))
    (fun e => (false, "Failed to update model: " +:+ e)).

(** The loop of [get_default_model]:
    [if config.model_type == model_type and config.is_default: return config]. *)
Fixpoint first_default (mtype : string) (configs : list ModelConfigModel)
    : Prog ModelService (option ModelConfigModel) :=
  match configs with
  | [] => ret None
  | config :: rest =>
      let* (t : string) := read_undeclared "ModelConfigModel" "model_type" in
      let* (flag : bool) :=
        (if decide (t = mtype)
         then read_undeclared "ModelConfigModel" "is_default"
         else ret false) in
      if flag then ret (Some config) else first_default mtype rest
  end.

(** [get_default_model] has no [try] block: what the loop raises reaches the
    caller. *)
Definition get_default_model (mtype : string)
    : Prog ModelService (option ModelConfigModel) :=
  let* s := gets (fun s => s) in
  first_default mtype (PyDict.values (models s)).
End Registry.

(** ** The provider libraries *)

(** Modelled from the spec: the requests and responses of the two
    dispatchers, with the fields they read and fill in; the models file
    declares no classes of these names. *)
Record TextGenerationRequestModel := mkTextRequest {
  prompt : string;
  text_model_name : option string;
  max_tokens : Z;
  temperature : float;
  top_p : float
}.

Record TextGenerationResponseModel := mkTextResponse {
  text : string;
  text_response_model : string;
  tokens_used : Z;
  finish_reason : string
}.

Record EmbeddingRequestModel := mkEmbeddingRequest {
  embedding_text : string;
  embedding_model_name : option string
}.

Record EmbeddingResponseModel := mkEmbeddingResponse {
  embedding : list float;
  embedding_response_model : string;
  dimension : Z
}.

(** The calls the service makes into [transformers],
    [sentence_transformers] and the OpenAI client.  The private helpers
    [_generate_with_*] and [_embed_with_*] only pass their arguments to
    these libraries, so each is one external operation. *)
Inductive ProviderCall :=
  | AutoTokenizer_from_pretrained (path : string)
  | AutoModel_from_pretrained (path : string)
  | AutoModelForCausalLM_from_pretrained (path : string)
  | SentenceTransformer (path : string)
  | generate_with_huggingface (h : Handle) (prompt : string)
  | generate_with_openai (path : string) (prompt : string)
  | embed_with_huggingface (h : Handle) (text : string)
  | embed_with_openai (path : string) (text : string)
  | embed_with_sentence_transformers (h : Handle) (text : string).


(** A provider backend with its own state [W]: every operation returns or
    raises, and may change [W]. *)
Class ProviderBackend (W : Type) := {
  from_pretrained : ProviderCall -> W -> Outcome Obj * W;
  provider_generate :
    ProviderCall -> TextGenerationRequestModel -> W -> Outcome (string * Z) * W;
  provider_embed : ProviderCall -> W -> Outcome (list float) * W
}.

(** The service object, the backend it talks to, and the calls made so far
    (most recent last). *)
Record MEnv (W : Type) := mkMEnv {
  svc : ModelService;
  pworld : W;
  pcalls : list ProviderCall
}.
Arguments mkMEnv {W} _ _ _.
Arguments svc {W} _.
Arguments pworld {W} _.
Arguments pcalls {W} _.

Section ModelLoader.
Context {W : Type} `{ProviderBackend W} `{PyRuntime}.

Definition set_svc (s : ModelService) (e : MEnv W) : MEnv W :=
  mkMEnv s (pworld e) (pcalls e).

(** A method of the service object that makes no external call. *)
Definition on_service {A : Type} (m : Prog ModelService A) : Prog (MEnv W) A :=
  fun e => let '(r, s') := m (svc e) in (r, set_svc s' e).

(** One external call: logged, then answered by the backend. *)
Definition pcall {A : Type} (c : ProviderCall) (op : W -> Outcome A * W)
    : Prog (MEnv W) A :=
  fun e =>
    let '(r, w') := op (pworld e) in
    (r, mkMEnv (svc e) w' (pcalls e ++ [c])).

Definition load_object (c : ProviderCall) : Prog (MEnv W) Obj :=
  pcall c (from_pretrained c).

Local Open Scope prog_scope.

(** [config.model_type] and [config.model_path] are reads of attributes the
    descriptor class does not declare. *)
Definition _load_huggingface_model (config : ModelConfigModel)
    : Prog (MEnv W) Handle :=
  let* (model_type : string) := read_undeclared "ModelConfigModel" "model_type" in
  if decide (model_type = "embedding") then
    let* (model_path : string) := read_undeclared "ModelConfigModel" "model_path" in
    let* tokenizer := load_object (AutoTokenizer_from_pretrained model_path) in
    let* (model_path : string) := read_undeclared "ModelConfigModel" "model_path" in
    let* model := load_object (AutoModel_from_pretrained model_path) in
    ret (HFHandle tokenizer model)
  else
    let* (model_type : string) := read_undeclared "ModelConfigModel" "model_type" in
    if decide (model_type = "generation") then
      let* (model_path : string) := read_undeclared "ModelConfigModel" "model_path" in
      let* tokenizer := load_object (AutoTokenizer_from_pretrained model_path) in
      let* (model_path : string) := read_undeclared "ModelConfigModel" "model_path" in
      let* model := load_object (AutoModelForCausalLM_from_pretrained model_path) in
      ret (HFHandle tokenizer model)
    else
      let* (model_type : string) := read_undeclared "ModelConfigModel" "model_type" in
      raise ("Unsupported model type: " +:+ model_type).

Definition _load_sentence_transformers_model (config : ModelConfigModel)
    : Prog (MEnv W) Handle :=
  let* (model_path : string) := read_undeclared "ModelConfigModel" "model_path" in
  let* model := load_object (SentenceTransformer model_path) in
  ret (STHandle model).

(** [self.loaded_models[name] = model] and the success tuple. *)
Definition store_loaded (n : string) (model : Handle) : Prog (MEnv W) (bool * string) :=
  let* _ := modify (fun e =>
              set_svc (set_loaded_models (<[n := model]> (loaded_models (svc e)))
                                         (svc e)) e) in
  ret (true, "Model " +:+ n +:+ " loaded successfully").

(** The [if]/[elif] chain of [load_model] compares the provider with three
    members of the enumeration, looked up in that order; the third name is
    [SENTENCE_TRANSFORMERS]. *)
Definition load_model (n : string) : MEnv W -> (bool * string) * MEnv W :=
  try_except
    (let* s := gets svc in
     match PyDict.get n (models s) with
     | None => ret (false, "Model " +:+ n +:+ " not found")
     | Some model_config =>
         if is_model_loaded n s then
           ret (true, "Model " +:+ n +:+ " already loaded")
         else
           let* huggingface := enum_member "HUGGINGFACE" in
           if decide (provider model_config = huggingface) then
             let* model := _load_huggingface_model model_config in
             store_loaded n model
           else
             let* openai := enum_member "OPENAI" in
             if decide (provider model_config = openai) then
               if negb (openai_client s) then
                 ret (false, "OpenAI client not initialized")
               else store_loaded n OpenAIHandle
             else
               let* sentence_transformers := enum_member "SENTENCE_TRANSFORMERS" in
               if decide (provider model_config = sentence_transformers) then
                 let* model := _load_sentence_transformers_model model_config in
                 store_loaded n model
               else
                 ret (false, "Unsupported provider: "
                             +:+ provider_value (provider model_config))
     end)
    (fun e => (false, "Failed to load model: " +:+ e)).

(** [if not model_name]: [None] and the empty string are both falsy. *)
Definition given (o : option string) : option string :=
  match o with
  | Some n => if decide (n = "") then None else Some n
  | None => None
  end.

(** The first block of [generate_text] and [generate_embedding]: the
    requested name, or else the name of the default of that type, if
    [get_default_model] returns one. *)
Definition resolve_model_name (requested : option string) (mtype : string)
    : Prog (MEnv W) (option string) :=
  match given requested with
  | Some n => ret (Some n)
  | None =>
      let* default_model := on_service (get_default_model mtype) in
      ret (name <$> default_model)
  end.

(** The block shared by both dispatchers between name resolution and
    provider dispatch: the membership test and the lazy load.  [inl] is an
    early [return False, message, None]. *)
Definition ensure_loaded (model_name : string)
    : Prog (MEnv W) (string + ModelConfigModel * Handle) :=
  let* s := gets svc in
  if negb (PyDict.mem model_name (models s)) then
    ret (inl ("Model " +:+ model_name +:+ " not found"))
  else
    let* loaded :=
      (if negb (is_model_loaded model_name s)
       then lift (load_model model_name)
       else ret (true, "")) in
    if negb loaded.1 then ret (inl loaded.2)
    else
      let* s := gets svc in
      let* model_config := subscript (PyDict.get model_name (models s)) model_name in
      let* loaded_model := subscript (loaded_models s !! model_name) model_name in
      ret (inr (model_config, loaded_model)).

(** [_generate_with_openai(model_config.model_path, request)] reads the
    undeclared [model_path] before the helper is entered. *)
Definition generate_text (request : TextGenerationRequestModel)
    : MEnv W -> (bool * string * option TextGenerationResponseModel) * MEnv W :=
  try_except
    (let* resolved := resolve_model_name (text_model_name request) "generation" in
     match resolved with
     | None => ret (false, "No default generation model available", None)
     | Some model_name =>
         let* r := ensure_loaded model_name in
         match r with
         | inl message => ret (false, message, None)
         | inr (model_config, loaded_model) =>
             let respond '(text, tokens) :=
               ret (true, "Text generated successfully",
                    Some (mkTextResponse text model_name tokens "completed")) in
             let* huggingface := enum_member "HUGGINGFACE" in
             if decide (provider model_config = huggingface) then
               let c := generate_with_huggingface loaded_model (prompt request) in
               let* r := pcall c (provider_generate c request) in
               respond r
             else
               let* openai := enum_member "OPENAI" in
               if decide (provider model_config = openai) then
                 let* (model_path : string) :=
                   read_undeclared "ModelConfigModel" "model_path" in
                 let c := generate_with_openai model_path (prompt request) in
                 let* r := pcall c (provider_generate c request) in
                 respond r
               else
                 ret (false,
                      "Text generation not supported for provider: "
                      +:+ provider_value (provider model_config),
                      None)
         end
     end)
    (fun e => (false, "Failed to generate text: " +:+ e, None)).

Definition generate_embedding (request : EmbeddingRequestModel)
    : MEnv W -> (bool * string * option EmbeddingResponseModel) * MEnv W :=
  try_except
    (let* resolved := resolve_model_name (embedding_model_name request) "embedding" in
     match resolved with
     | None => ret (false, "No default embedding model available", None)
     | Some model_name =>
         let* r := ensure_loaded model_name in
         match r with
         | inl message => ret (false, message, None)
         | inr (model_config, loaded_model) =>
             let respond (embedding : list float) :=
               ret (true, "Embedding generated successfully",
                    Some (mkEmbeddingResponse embedding model_name
                            (Z.of_nat (length embedding)))) in
             let txt := embedding_text request in
             let* huggingface := enum_member "HUGGINGFACE" in
             if decide (provider model_config = huggingface) then
               let c := embed_with_huggingface loaded_model txt in
               let* r := pcall c (provider_embed c) in
               respond r
             else
               let* openai := enum_member "OPENAI" in
               if decide (provider model_config = openai) then
                 let* (model_path : string) :=
                   read_undeclared "ModelConfigModel" "model_path" in
                 let c := embed_with_openai model_path txt in
                 let* r := pcall c (provider_embed c) in
                 respond r
               else
                 let* sentence_transformers := enum_member "SENTENCE_TRANSFORMERS" in
                 if decide (provider model_config = sentence_transformers) then
                   let c := embed_with_sentence_transformers loaded_model txt in
                   let* r := pcall c (provider_embed c) in
                   respond r
                 else
                   ret (false,
                        "Embedding not supported for provider: "
                        +:+ provider_value (provider model_config),
                        None)
         end
     end)
    (fun e => (false, "Failed to generate embedding: " +:+ e, None)).
End ModelLoader.

(** ** Data model of the vector service ([app/models/vector.py]) *)

Inductive IndexType := FLAT | IVF_FLAT | IVF_SQ8 | HNSW.

Inductive MetricType :=
  | L2 | IP | COSINE | HAMMING | JACCARD | TANIMOTO | SUBSTRUCTURE | SUPERSTRUCTURE.

Definition index_type_value (t : IndexType) : string :=
  match t with
  | FLAT => "FLAT" | IVF_FLAT => "IVF_FLAT" | IVF_SQ8 => "IVF_SQ8" | HNSW => "HNSW"
  end.

Definition metric_type_value (m : MetricType) : string :=
  match m with
  | L2 => "L2" | IP => "IP" | COSINE => "COSINE" | HAMMING => "HAMMING"
  | JACCARD => "JACCARD" | TANIMOTO => "TANIMOTO"
  | SUBSTRUCTURE => "SUBSTRUCTURE" | SUPERSTRUCTURE => "SUPERSTRUCTURE"
  end.

Record IndexParamsModel := mkIndexParams {
  index_type : IndexType;
  metric_type : MetricType;
  params : gmap string string
}.

Record VectorModel := mkVector {
  id : string;
  vector : list float;
  metadata : option (gmap string string)
}.

Record SearchResultModel := mkSearchResult {
  result_id : string;
  result_score : float;
  result_vector : option (list float);
  result_metadata : option (gmap string string)
}.

Record SearchOptionsModel := mkSearchOptions {
  topk : Z;
  include_vector : bool;
  filter_expr : option (gmap string string)
}.

(** ** What the service hands to [pymilvus]

    [FieldSchema] and [CollectionSchema] are plain descriptions here: any
    check the library makes on them is part of the [Collection] call. *)

Inductive DataType := VARCHAR | FLOAT_VECTOR.

Record FieldSchema := mkField {
  field_name : string;
  dtype : DataType;
  max_length : option Z;
  is_primary : bool;
  dim : option Z
}.

Record CollectionSchema := mkSchema {
  fields : list FieldSchema;
  schema_description : string
}.

(** The dict [{"index_type": ..., "metric_type": ..., "params": ...}]. *)
Record IndexParamsDict := mkIndexDict {
  dict_index_type : string;
  dict_metric_type : string;
  dict_params : gmap string string
}.

(** The dict [{"metric_type": ..., "params": {"nprobe": ...}}]. *)
Record SearchParams := mkSearchParams {
  search_metric_type : string;
  nprobe : Z
}.

(** One hit of a search: [hit.entity.get("id")] and [hit.score]. *)
Record Hit := mkHit {
  entity_id : option string;
  score : float
}.

Inductive VectorCall :=
  | utility_has_collection (n : string)
  | utility_drop_collection (n : string)
  | Collection (n : string) (schema : option CollectionSchema)
  | Collection_create_index (n : string) (field : string) (p : IndexParamsDict)
  | Collection_insert (n : string) (ids : list string) (data : list (list float))
  | Collection_upsert (n : string) (ids : list string) (data : list (list float))
  | Collection_load (n : string)
  | Collection_search (n : string) (data : list (list float)) (anns_field : string)
      (param : SearchParams) (limit : Z).

(** The vector store with its own state [W], one handler per result type:
    a truth value ([utility.has_collection]), nothing ([Collection],
    [create_index], [load], [drop_collection]), primary keys ([insert],
    [upsert]) and one list of hits per query vector ([search]). *)
Class VectorStoreBackend (W : Type) := {
  answer_bool : VectorCall -> W -> Outcome bool * W;
  answer_unit : VectorCall -> W -> Outcome unit * W;
  answer_keys : VectorCall -> W -> Outcome (list string) * W;
  answer_hits : VectorCall -> W -> Outcome (list (list Hit)) * W
}.

Record VEnv (W : Type) := mkVEnv {
  vworld : W;
  vcalls : list VectorCall
}.
Arguments mkVEnv {W} _ _.
Arguments vworld {W} _.
Arguments vcalls {W} _.

(** [id_field], [vector_field] and the [CollectionSchema] that
    [create_collection] builds from its arguments. *)
Definition created_schema (description : string) (vector_dim : Z) : CollectionSchema :=
  let id_field := mkField "id" VARCHAR (Some 65535%Z) true None in
  let vector_field := mkField "vector" FLOAT_VECTOR None false (Some vector_dim) in
  mkSchema [id_field; vector_field] description.

Section VectorDB.
Context {W : Type} `{VectorStoreBackend W}.

Definition vcall {A : Type} (c : VectorCall)
    (answer : VectorCall -> W -> Outcome A * W) : Prog (VEnv W) A :=
  fun e =>
    let '(r, w') := answer c (vworld e) in
    (r, mkVEnv w' (vcalls e ++ [c])).

Local Open Scope prog_scope.

(** [for x in xs: out.append(f x)] *)
Fixpoint for_each {A B : Type} (f : A -> Prog (VEnv W) B) (xs : list A)
    : Prog (VEnv W) (list B) :=
  match xs with
  | [] => ret []
  | x :: xs' =>
      let* y := f x in
      let* ys := for_each f xs' in
      ret (y :: ys)
  end.

Definition index_params_dict (p : IndexParamsModel) : IndexParamsDict :=
  mkIndexDict (index_type_value (index_type p))
              (metric_type_value (metric_type p)) (params p).

Definition create_collection (n : string) (description : string)
    (vector_dim : Z) (index_params : IndexParamsModel)
    : VEnv W -> (bool * string) * VEnv W :=
  try_except
    (let* present := vcall (utility_has_collection n) answer_bool in
     if present : bool then
       ret (false, "Collection " +:+ n +:+ " already exists")
     else
       let schema := created_schema description vector_dim in
       let* _ := vcall (Collection n (Some schema)) answer_unit in
       let* _ := vcall (Collection_create_index n "vector"
                          (index_params_dict index_params)) answer_unit in
       ret (true, "Collection " +:+ n +:+ " created successfully"))
    (fun e => (false, "Failed to create collection: " +:+ e)).

Definition drop_collection (n : string) : VEnv W -> (bool * string) * VEnv W :=
  try_except
    (let* present := vcall (utility_has_collection n) answer_bool in
     if negb present then
       ret (false, "Collection " +:+ n +:+ " does not exist")
     else
       let* _ := vcall (utility_drop_collection n) answer_unit in
       ret (true, "Collection " +:+ n +:+ " dropped successfully"))
    (fun e => (false, "Failed to drop collection: " +:+ e)).

Definition insert (collection_name : string) (vectors : list VectorModel)
    : VEnv W -> (bool * string * list string) * VEnv W :=
  try_except
    (let* present := vcall (utility_has_collection collection_name) answer_bool in
     if negb present then
       ret (false, "Collection " +:+ collection_name +:+ " does not exist", [])
     else
       let* _ := vcall (Collection collection_name None) answer_unit in
       let ids := id <$> vectors in
       let vectors_data := vector <$> vectors in
       let* primary_keys :=
         vcall (Collection_insert collection_name ids vectors_data) answer_keys in
       ret (true,
            "Inserted " +:+ pretty (length vectors) +:+ " vectors successfully",
            primary_keys))
    (fun e => (false, "Failed to insert vectors: " +:+ e, [])).

Definition upsert (collection_name : string) (vectors : list VectorModel)
    : VEnv W -> (bool * string * list string) * VEnv W :=
  try_except
    (let* present := vcall (utility_has_collection collection_name) answer_bool in
     if negb present then
       ret (false, "Collection " +:+ collection_name +:+ " does not exist", [])
     else
       let* _ := vcall (Collection collection_name None) answer_unit in
       let ids := id <$> vectors in
       let vectors_data := vector <$> vectors in
       let* primary_keys :=
         vcall (Collection_upsert collection_name ids vectors_data) answer_keys in
       ret (true,
            "Upserted " +:+ pretty (length vectors) +:+ " vectors successfully",
            primary_keys))
    (fun e => (false, "Failed to upsert vectors: " +:+ e, [])).

(** [SearchResultModel(id=hit.entity.get("id"), score=hit.score,
      vector=query_vector if options.include_vector else None, metadata={})];
    the model requires [id] to be a string. *)
Definition search_result (query_vector : list float)
    (options : SearchOptionsModel) (hit : Hit) : Prog (VEnv W) SearchResultModel :=
  match entity_id hit with
  | None => raise "1 validation error for SearchResultModel"
  | Some i =>
      ret (mkSearchResult i (score hit)
             (if include_vector options then Some query_vector else None)
             (Some ∅))
  end.

Definition search (collection_name : string) (query_vector : list float)
    (options : SearchOptionsModel)
    : VEnv W -> (bool * string * list SearchResultModel) * VEnv W :=
  try_except
    (let* present := vcall (utility_has_collection collection_name) answer_bool in
     if negb present then
       ret (false, "Collection " +:+ collection_name +:+ " does not exist", [])
     else
       let* _ := vcall (Collection collection_name None) answer_unit in
       let* _ := vcall (Collection_load collection_name) answer_unit in
       let search_params := mkSearchParams "L2" 10 in
       let* results :=
         vcall (Collection_search collection_name [query_vector] "vector"
                  search_params (topk options)) answer_hits in
       match results with
       | [] => raise "list index out of range"
       | hits :: _ =>
           let* search_results := for_each (search_result query_vector options) hits in
           ret (true,
                "Found " +:+ pretty (length search_results) +:+ " results",
                search_results)
       end)
    (fun e => (false, "Failed to search vectors: " +:+ e, [])).
End VectorDB.

(** ** A provider for concrete runs

    Model paths listed in [hub] can be loaded and every object gets a
    fresh number; any other path raises.  Generation echoes the prompt and
    embedding returns a two-component vector. *)

Record SimProvider := mkSimProvider {
  next_obj : nat;
  hub : list string
}.

Definition sim_from_pretrained (c : ProviderCall) (w : SimProvider)
    : Outcome Obj * SimProvider :=
  match c with
  | AutoTokenizer_from_pretrained p | AutoModel_from_pretrained p
  | AutoModelForCausalLM_from_pretrained p | SentenceTransformer p =>
      if bool_decide (p ∈ hub w) then
        (Returned (next_obj w), mkSimProvider (S (next_obj w)) (hub w))
      else (Raised (p +:+ " is not a valid model identifier"), w)
  | _ => (Raised "not a loader", w)
  end.

#[global] Instance sim_provider : ProviderBackend SimProvider := {
  from_pretrained := sim_from_pretrained;
  provider_generate _ request w := (Returned (prompt request, 0%Z), w);
  provider_embed _ w := (Returned [0%float; 1%float], w)
}.

Definition sim_hub : SimProvider := mkSimProvider 0 ["bert-base"; "gpt2"].

(** ** A runtime for concrete runs

    Short tags stand for the sentences of the interpreter and of pydantic. *)

#[global] Instance sim_runtime : PyRuntime := {
  no_attribute cls attr := cls +:+ " has no attribute " +:+ attr;
  no_member cls member := cls +:+ " has no member " +:+ member;
  no_field cls field := cls +:+ " has no field " +:+ field;
  missing_fields cls missing := cls +:+ " requires " +:+ String.concat ", " missing
}.

(** ** A vector store for concrete runs

    Collections by name, each with its dimension, its index (if any) and its
    rows.  As the real store does, it refuses a dimension outside 1..32768,
    an index on float vectors with a metric other than L2, IP or COSINE, and
    rows whose vector length is not the dimension of the collection.  A
    search answers with the first [limit] rows and their squared L2 distance
    (no ranking). *)

Record SimCollection := mkSimCollection {
  sim_dim : Z;
  sim_index : option IndexParamsDict;
  sim_rows : list (string * list float)
}.

Abbreviation SimMilvus := (gmap string SimCollection).

Definition vector_dim_of (schema : CollectionSchema) : option Z :=
  match List.find (fun f => match dtype f with FLOAT_VECTOR => true | _ => false end)
                  (fields schema) with
  | Some f => dim f
  | None => None
  end.

Definition float_metric (m : string) : bool :=
  bool_decide (m ∈ ["L2"; "IP"; "COSINE"]).

Fixpoint squared_l2 (a b : list float) : float :=
  match a, b with
  | x :: a', y :: b' => ((x - y) * (x - y) + squared_l2 a' b')%float
  | _, _ => 0%float
  end.

Definition sim_answer_bool (c : VectorCall) (w : SimMilvus)
    : Outcome bool * SimMilvus :=
  match c with
  | utility_has_collection n => (Returned (bool_decide (is_Some (w !! n))), w)
  | _ => (Raised "unexpected call", w)
  end.

Definition sim_answer_unit (c : VectorCall) (w : SimMilvus)
    : Outcome unit * SimMilvus :=
  match c with
  | Collection n (Some schema) =>
      match w !! n with
      | Some _ => (Returned tt, w)
      | None =>
          match vector_dim_of schema with
          | Some d =>
              if bool_decide (1 <= d <= 32768)%Z then
                (Returned tt, <[n := mkSimCollection d None []]> w)
              else (Raised ("invalid dimension: " +:+ pretty d), w)
          | None => (Raised "schema has no vector field", w)
          end
      end
  | Collection n None =>
      match w !! n with
      | Some _ => (Returned tt, w)
      | None => (Raised ("collection " +:+ n +:+ " not found"), w)
      end
  | Collection_create_index n _ p =>
      match w !! n with
      | Some col =>
          if float_metric (dict_metric_type p) then
            (Returned tt, <[n := mkSimCollection (sim_dim col) (Some p) (sim_rows col)]> w)
          else
            (Raised ("metric type " +:+ dict_metric_type p
                     +:+ " is not supported for float vectors"), w)
      | None => (Raised ("collection " +:+ n +:+ " not found"), w)
      end
  | Collection_load n =>
      match w !! n with
      | Some _ => (Returned tt, w)
      | None => (Raised ("collection " +:+ n +:+ " not found"), w)
      end
  | utility_drop_collection n => (Returned tt, delete n w)
  | _ => (Raised "unexpected call", w)
  end.

Definition sim_write (n : string) (ids : list string) (data : list (list float))
    (w : SimMilvus) : Outcome (list string) * SimMilvus :=
  match w !! n with
  | Some col =>
      if bool_decide (length ids = length data) &&
         forallb (fun v => bool_decide (Z.of_nat (length v) = sim_dim col)) data
      then
        (Returned ids,
         <[n := mkSimCollection (sim_dim col) (sim_index col)
                  (sim_rows col ++ zip ids data)]> w)
      else (Raised "the dimension of a vector does not match the collection", w)
  | None => (Raised ("collection " +:+ n +:+ " not found"), w)
  end.

Definition sim_answer_keys (c : VectorCall) (w : SimMilvus)
    : Outcome (list string) * SimMilvus :=
  match c with
  | Collection_insert n ids data | Collection_upsert n ids data =>
      sim_write n ids data w
  | _ => (Raised "unexpected call", w)
  end.

Definition sim_answer_hits (c : VectorCall) (w : SimMilvus)
    : Outcome (list (list Hit)) * SimMilvus :=
  match c with
  | Collection_search n data _ _ limit =>
      match w !! n with
      | Some col =>
          (Returned
             ((fun q =>
                 (fun row => mkHit (Some row.1) (squared_l2 q row.2))
                   <$> take (Z.to_nat limit) (sim_rows col)) <$> data), w)
      | None => (Raised ("collection " +:+ n +:+ " not found"), w)
      end
  | _ => (Raised "unexpected call", w)
  end.

#[global] Instance sim_milvus : VectorStoreBackend SimMilvus := {
  answer_bool := sim_answer_bool;
  answer_unit := sim_answer_unit;
  answer_keys := sim_answer_keys;
  answer_hits := sim_answer_hits
}.

(** An empty store and nothing called yet. *)
Definition fresh_store : VEnv SimMilvus := mkVEnv ∅ [].

(** ** Runs of the model service *)

Inductive Operation :=
  | Register (request : RegisterModelRequestModel)
  | Update (request : UpdateModelRequestModel)
  | Unregister (n : string)
  | Load (n : string)
  | Unload (n : string)
  | GenerateText (request : TextGenerationRequestModel)
  | GenerateEmbedding (request : EmbeddingRequestModel).

Section Runs.
Context {W : Type} `{ProviderBackend W} `{PyRuntime}.

(** A registry method applied to the service object of an environment. *)
Definition on_svc {A : Type} (f : ModelService -> A * ModelService) (e : MEnv W)
    : MEnv W :=
  set_svc (f (svc e)).2 e.

(** The environment after one operation, whatever it returned or raised. *)
Definition perform (op : Operation) (e : MEnv W) : MEnv W :=
  match op with
  | Register request => on_svc (register_model request) e
  | Update request => on_svc (update_model request) e
  | Unregister n => on_svc (unregister_model n) e
  | Load n => (load_model n e).2
  | Unload n => on_svc (unload_model n) e
  | GenerateText request => (generate_text request e).2
  | GenerateEmbedding request => (generate_embedding request e).2
  end.

(** The service as [ModelService()] builds it, with a backend in any state. *)
Definition initial (has_key : bool) (w : W) : MEnv W :=
  mkMEnv (init_model_service has_key) w [].

Inductive reachable : MEnv W -> Prop :=
  | reachable_initial has_key w : reachable (initial has_key w)
  | reachable_perform op e : reachable e -> reachable (perform op e).

Definition run (ops : list Operation) (e : MEnv W) : MEnv W :=
  foldl (fun e op => perform op e) e ops.
End Runs.

(** ** Predicates of the statements *)

(** The every-key view of the invariant of the handle cache. *)
Definition cache_registered (s : ModelService) : Prop :=
  forall k, is_Some (loaded_models s !! k) -> PyDict.mem k (models s) = true.

(** A registry with the same names, and a cache that gained registered
    names only. *)
Definition extends (s s' : ModelService) : Prop :=
  PyDict.keys (models s') = PyDict.keys (models s) /\
  forall k, is_Some (loaded_models s' !! k) ->
            is_Some (loaded_models s !! k) \/ PyDict.mem k (models s) = true.

(** The environment after the backend has answered the calls [cs], in that
    order, and is left in state [w]. *)
Definition after {W : Type} (e : VEnv W) (cs : list VectorCall) (w : W) : VEnv W :=
  mkVEnv w (vcalls e ++ cs).

Section WritePaths.
Context {W : Type} `{VectorStoreBackend W}.

(** Every path through [insert] and [upsert], which differ in the backend
    call and in the words of their messages only. *)
Definition write_cases (op : string -> list VectorModel
                             -> VEnv W -> (bool * string * list string) * VEnv W)
    (call : string -> list string -> list (list float) -> VectorCall)
    (verb past : string) : Prop :=
  forall n (vectors : list VectorModel) e,
    let has := utility_has_collection n in
    let open := Collection n None in
    let write := call n (id <$> vectors) (vector <$> vectors) in
    let failed msg := (false, "Failed to " +:+ verb +:+ " vectors: " +:+ msg, []) in
    op n vectors e
    = match answer_bool has (vworld e) with
      | (Raised msg, w1) => (failed msg, after e [has] w1)
      | (Returned false, w1) =>
          ((false, "Collection " +:+ n +:+ " does not exist", []), after e [has] w1)
      | (Returned true, w1) =>
          match answer_unit open w1 with
          | (Raised msg, w2) => (failed msg, after e [has; open] w2)
          | (Returned _, w2) =>
              match answer_keys write w2 with
              | (Raised msg, w3) => (failed msg, after e [has; open; write] w3)
              | (Returned primary_keys, w3) =>
                  ((true,
                    past +:+ " " +:+ pretty (length vectors) +:+ " vectors successfully",
                    primary_keys),
                   after e [has; open; write] w3)
              end
          end
      end.
End WritePaths.

(** ** Concrete inputs *)

(** The OpenAI model of [test_openai_integration.py] as a descriptor of the
    declared class, and the request that carries it. *)
Definition gpt35_config : ModelConfigModel :=
  mkModelConfig "gpt-3.5-turbo" OPENAI "gpt-3.5-turbo" ∅ true.

Definition gpt35_request : RegisterModelRequestModel :=
  mkRegisterRequest gpt35_config.

(** A service object with a client whose registry holds that descriptor.
    The entry is written into [models] directly: no call of
    [register_model] stores one. *)
Definition gpt35_registered : MEnv SimProvider :=
  mkMEnv (mkModelService [("gpt-3.5-turbo", gpt35_config)] ∅ true) sim_hub [].

(** The same service after [load_model]. *)
Definition gpt35_loaded : MEnv SimProvider :=
  (load_model "gpt-3.5-turbo" gpt35_registered).2.


Definition gpt35_to_local_path : UpdateModelRequestModel :=
  mkUpdateRequest "gpt-3.5-turbo" (Some HUGGINGFACE) (Some "gpt2") None None None None.

(** An update that sets the default flag. *)
Definition gpt35_make_default : UpdateModelRequestModel :=
  mkUpdateRequest "gpt-3.5-turbo" None None None None (Some true) None.

(** A registry holding a model of a provider without loader, and one
    holding a local transformer model whose handle is in the cache. *)
Definition local_config : ModelConfigModel :=
  mkModelConfig "local" CUSTOM "/models/local" ∅ true.

Definition local_registered : MEnv SimProvider :=
  mkMEnv (mkModelService [("local", local_config)] ∅ false) sim_hub [].

Definition bert_config : ModelConfigModel :=
  mkModelConfig "bert" HUGGINGFACE "bert-base" ∅ true.

Definition bert_cached : MEnv SimProvider :=
  mkMEnv (mkModelService [("bert", bert_config)] {["bert" := HFHandle 0 1]} false)
         sim_hub [].

Definition hnsw_l2 : IndexParamsModel := mkIndexParams HNSW L2 ∅.
Definition hnsw_hamming : IndexParamsModel := mkIndexParams HNSW HAMMING ∅.

(** A store holding the collection "c1" of dimension 2 with its index, and
    an empty call log. *)
Definition store_c1 : VEnv SimMilvus :=
  mkVEnv (vworld (create_collection "c1" "" 2 hnsw_l2 fresh_store).2) [].

(** The same store after the row "v1" = (1, 2) was inserted. *)
Definition store_c1_v1 : VEnv SimMilvus :=
  mkVEnv (vworld (insert "c1" [mkVector "v1" [1%float; 2%float] None] store_c1).2) [].

Definition has_c1 : VectorCall := utility_has_collection "c1".
Definition open_c1 : VectorCall := Collection "c1" None.
Definition new_c1 (vector_dim : Z) : VectorCall :=
  Collection "c1" (Some (created_schema "" vector_dim)).
Definition index_c1 (p : IndexParamsModel) : VectorCall :=
  Collection_create_index "c1" "vector" (index_params_dict p).

(** ** The rest of [VectorDBService]

    The methods below make calls the first interface does not have: the
    connection, the listing, the index probes, deletion, queries, compaction
    and the entity count.  They are a second interface on top of the first,
    and the log keeps the calls of both in order. *)

Inductive AdminCall :=
  | connections_connect
  | utility_list_collections
  | Collection_has_index (n : string)
  | Collection_drop_index (n : string)
  | Collection_delete (n : string) (ids : list string)
  | Collection_query (n : string) (expr : string) (output_fields : list string)
  | Collection_compact (n : string)
  | Collection_num_entities (n : string)
  | Collection_schema_dim (n : string).

(** One row of a query answer; [row_vector] is its "vector" entry. *)
Record QueryRow := mkRow {
  row_vector : option (list float)
}.

Class VectorStoreAdmin (W : Type) `{VectorStoreBackend W} := {
  admin_unit : AdminCall -> W -> Outcome unit * W;
  admin_bool : AdminCall -> W -> Outcome bool * W;
  admin_names : AdminCall -> W -> Outcome (list string) * W;
  admin_rows : AdminCall -> W -> Outcome (list QueryRow) * W;
  admin_int : AdminCall -> W -> Outcome Z * W
}.

(** The service object ([_connected]), the store, and the calls so far. *)
Record AEnv (W : Type) := mkAEnv {
  _connected : bool;
  astore : W;
  acalls : list (VectorCall + AdminCall)
}.
Arguments mkAEnv {W} _ _ _.
Arguments _connected {W} _.
Arguments astore {W} _.
Arguments acalls {W} _.

Record CollectionStatsModel := mkStats {
  stats_name : string;
  vector_count : Z;
  size_in_bytes : Z
}.

Section VectorAdmin.
Context {W : Type} `{VectorStoreAdmin W}.

(** A call of the first interface, from a method of this part. *)
Definition bcall {A : Type} (c : VectorCall)
    (answer : VectorCall -> W -> Outcome A * W) : Prog (AEnv W) A :=
  fun e =>
    let '(r, w') := answer c (astore e) in
    (r, mkAEnv (_connected e) w' (acalls e ++ [inl c])).

Definition acall {A : Type} (c : AdminCall)
    (answer : AdminCall -> W -> Outcome A * W) : Prog (AEnv W) A :=
  fun e =>
    let '(r, w') := answer c (astore e) in
    (r, mkAEnv (_connected e) w' (acalls e ++ [inr c])).

Local Open Scope prog_scope.

(** [_connect]: the flag says whether [connections.connect] returned. *)
Definition _connect (e : AEnv W) : AEnv W :=
  let '(r, e') := acall connections_connect admin_unit e in
  match r with
  | Returned _ => mkAEnv true (astore e') (acalls e')
  | Raised _ => mkAEnv false (astore e') (acalls e')
  end.

(** [VectorDBService()] on a store in state [w]. *)
Definition init_vector_service (w : W) : AEnv W := _connect (mkAEnv false w []).

Definition is_connected (e : AEnv W) : bool := _connected e.

Definition health_check (e : AEnv W) : (bool * string) * AEnv W :=
  if negb (_connected e) then ((false, "Not connected to Milvus"), e)
  else
    try_except
      (let* _ := acall utility_list_collections admin_names in
       ret (true, "Healthy"))
      (fun msg => (false, "Health check failed: " +:+ msg))
      e.

Definition list_collections : AEnv W -> list string * AEnv W :=
  try_except (acall utility_list_collections admin_names) (fun _ => []).

Definition create_index (collection_name : string) (index_params : IndexParamsModel)
    : AEnv W -> (bool * string) * AEnv W :=
  try_except
    (let* present := bcall (utility_has_collection collection_name) answer_bool in
     if negb present then
       ret (false, "Collection " +:+ collection_name +:+ " does not exist")
     else
       let* _ := bcall (Collection collection_name None) answer_unit in
       let* indexed := acall (Collection_has_index collection_name) admin_bool in
       if indexed : bool then
         ret (false, "Collection " +:+ collection_name +:+ " already has an index")
       else
         let* _ := bcall (Collection_create_index collection_name "vector"
                            (index_params_dict index_params)) answer_unit in
         ret (true, "Index created successfully for collection " +:+ collection_name))
    (fun msg => (false, "Failed to create index: " +:+ msg)).

Definition drop_index (collection_name : string)
    : AEnv W -> (bool * string) * AEnv W :=
  try_except
    (let* present := bcall (utility_has_collection collection_name) answer_bool in
     if negb present then
       ret (false, "Collection " +:+ collection_name +:+ " does not exist")
     else
       let* _ := bcall (Collection collection_name None) answer_unit in
       let* indexed := acall (Collection_has_index collection_name) admin_bool in
       if negb indexed then
         ret (false, "Collection " +:+ collection_name +:+ " has no index")
       else
         let* _ := acall (Collection_drop_index collection_name) admin_unit in
         ret (true, "Index dropped successfully for collection " +:+ collection_name))
    (fun msg => (false, "Failed to drop index: " +:+ msg)).

Definition has_index (collection_name : string) : AEnv W -> bool * AEnv W :=
  try_except
    (let* present := bcall (utility_has_collection collection_name) answer_bool in
     if negb present then ret false
     else
       let* _ := bcall (Collection collection_name None) answer_unit in
       acall (Collection_has_index collection_name) admin_bool)
    (fun _ => false).

Definition delete (collection_name : string) (ids : list string)
    : AEnv W -> (bool * string) * AEnv W :=
  try_except
    (let* present := bcall (utility_has_collection collection_name) answer_bool in
     if negb present then
       ret (false, "Collection " +:+ collection_name +:+ " does not exist")
     else
       let* _ := bcall (Collection collection_name None) answer_unit in
       let* _ := acall (Collection_delete collection_name ids) admin_unit in
       ret (true, "Deleted " +:+ pretty (length ids) +:+ " vectors successfully"))
    (fun msg => (false, "Failed to delete vectors: " +:+ msg)).

(** The expression [f"id == '{id}'"]. *)
Definition id_expr (i : string) : string := "id == '" +:+ i +:+ "'".

Definition get_by_id (collection_name : string) (i : string)
    : AEnv W -> (bool * string * option VectorModel) * AEnv W :=
  try_except
    (let* present := bcall (utility_has_collection collection_name) answer_bool in
     if negb present then
       ret (false, "Collection " +:+ collection_name +:+ " does not exist", None)
     else
       let* _ := bcall (Collection collection_name None) answer_unit in
       let* _ := bcall (Collection_load collection_name) answer_unit in
       let* result :=
         acall (Collection_query collection_name (id_expr i) ["vector"]) admin_rows in
       match result with
       | [] => ret (false, "Vector with ID " +:+ i +:+ " not found", None)
       | vector_data :: _ =>
           match row_vector vector_data with
           | None => raise "'vector'"
           | Some v =>
               ret (true, "Retrieved vector with ID " +:+ i,
                    Some (mkVector i v (Some ∅)))
           end
       end)
    (fun msg => (false, "Failed to get vector by ID: " +:+ msg, None)).

Definition compact (collection_name : string)
    : AEnv W -> (bool * string) * AEnv W :=
  try_except
    (let* present := bcall (utility_has_collection collection_name) answer_bool in
     if negb present then
       ret (false, "Collection " +:+ collection_name +:+ " does not exist")
     else
       let* _ := bcall (Collection collection_name None) answer_unit in
       let* _ := acall (Collection_compact collection_name) admin_unit in
       ret (true, "Collection " +:+ collection_name +:+ " compacted successfully"))
    (fun msg => (false, "Failed to compact collection: " +:+ msg)).

Definition get_collection_stats (n : string)
    : AEnv W -> option CollectionStatsModel * AEnv W :=
  try_except
    (let* present := bcall (utility_has_collection n) answer_bool in
     if negb present then ret None
     else
       let* _ := bcall (Collection n None) answer_unit in
       let* _ := bcall (Collection_load n) answer_unit in
       let* num_entities := acall (Collection_num_entities n) admin_int in
       let* vector_dim := acall (Collection_schema_dim n) admin_int in
       let size := (num_entities * vector_dim * 4)%Z in
       ret (Some (mkStats n num_entities size)))
    (fun _ => None).
End VectorAdmin.

Section VectorProbe.
Context {W : Type} `{VectorStoreBackend W}.

(** [has_collection]: the backend's answer, or [False] when it raises. *)
Definition has_collection (n : string) : VEnv W -> bool * VEnv W :=
  try_except (vcall (utility_has_collection n) answer_bool) (fun _ => false).
End VectorProbe.

(** ** The second interface on the store for concrete runs

    The connection always succeeds; the index probes and the entity count
    read the collection; a query with the expression of [get_by_id] answers
    with the rows of that id. *)

Definition sim_admin_unit (c : AdminCall) (w : SimMilvus) : Outcome unit * SimMilvus :=
  match c with
  | connections_connect => (Returned tt, w)
  | Collection_drop_index n =>
      match w !! n with
      | Some col => (Returned tt, <[n := mkSimCollection (sim_dim col) None (sim_rows col)]> w)
      | None => (Raised ("collection " +:+ n +:+ " not found"), w)
      end
  | Collection_delete n ids =>
      match w !! n with
      | Some col =>
          (Returned tt,
           <[n := mkSimCollection (sim_dim col) (sim_index col)
                    (List.filter (fun row => negb (bool_decide (row.1 ∈ ids)))
                                 (sim_rows col))]> w)
      | None => (Raised ("collection " +:+ n +:+ " not found"), w)
      end
  | Collection_compact n =>
      match w !! n with
      | Some _ => (Returned tt, w)
      | None => (Raised ("collection " +:+ n +:+ " not found"), w)
      end
  | _ => (Raised "unexpected call", w)
  end.

Definition sim_admin_bool (c : AdminCall) (w : SimMilvus) : Outcome bool * SimMilvus :=
  match c with
  | Collection_has_index n =>
      match w !! n with
      | Some col => (Returned (bool_decide (is_Some (sim_index col))), w)
      | None => (Raised ("collection " +:+ n +:+ " not found"), w)
      end
  | _ => (Raised "unexpected call", w)
  end.

Definition sim_admin_names (c : AdminCall) (w : SimMilvus)
    : Outcome (list string) * SimMilvus :=
  match c with
  | utility_list_collections => (Returned (map_to_list w).*1, w)
  | _ => (Raised "unexpected call", w)
  end.

Definition sim_admin_rows (c : AdminCall) (w : SimMilvus)
    : Outcome (list QueryRow) * SimMilvus :=
  match c with
  | Collection_query n expr _ =>
      match w !! n with
      | Some col =>
          (Returned
             ((fun row => mkRow (Some row.2))
                <$> List.filter (fun row => bool_decide (id_expr row.1 = expr))
                                (sim_rows col)), w)
      | None => (Raised ("collection " +:+ n +:+ " not found"), w)
      end
  | _ => (Raised "unexpected call", w)
  end.

Definition sim_admin_int (c : AdminCall) (w : SimMilvus) : Outcome Z * SimMilvus :=
  match c with
  | Collection_num_entities n =>
      match w !! n with
      | Some col => (Returned (Z.of_nat (length (sim_rows col))), w)
      | None => (Raised ("collection " +:+ n +:+ " not found"), w)
      end
  | Collection_schema_dim n =>
      match w !! n with
      | Some col => (Returned (sim_dim col), w)
      | None => (Raised ("collection " +:+ n +:+ " not found"), w)
      end
  | _ => (Raised "unexpected call", w)
  end.

#[global] Instance sim_milvus_admin : VectorStoreAdmin SimMilvus := {
  admin_unit := sim_admin_unit;
  admin_bool := sim_admin_bool;
  admin_names := sim_admin_names;
  admin_rows := sim_admin_rows;
  admin_int := sim_admin_int
}.

(** ** Vocabulary of the properties

    The environments, messages and invariants the properties of the model
    service are stated with, and the environments of the further properties
    of the vector service. *)

(** The environment after the provider has answered the calls [cs] and is
    left in state [w]; the service object is not touched. *)
Definition pafter {W : Type} (e : MEnv W) (cs : list ProviderCall) (w : W) : MEnv W :=
  mkMEnv (svc e) w (pcalls e ++ cs).

(** The environment after the handle [h] was stored for [n]; the backend is
    not touched. *)
Definition loaded_env {W : Type} (e : MEnv W) (n : string) (h : Handle) : MEnv W :=
  mkMEnv (set_loaded_models (<[n := h]> (loaded_models (svc e))) (svc e))
         (pworld e) (pcalls e).

(** The service object after the provider assignment of an update, if the
    request gives a provider. *)
Definition provider_assigned (r : UpdateModelRequestModel) (s : ModelService)
    : ModelService :=
  match upd_provider r with
  | Some p =>
      match PyDict.get (upd_name r) (models s) with
      | Some c => set_models (PyDict.set (upd_name r) (set_provider p c) (models s)) s
      | None => s
      end
  | None => s
  end.

(** The words of the exception that ends an update: those of the first
    field the request gives besides the provider, in the order of the
    assignments; [None] when the request gives no such field. *)
Definition update_refusal `{PyRuntime} (r : UpdateModelRequestModel) : option string :=
  match upd_model_path r, upd_model_type r, upd_description r,
        upd_is_default r, upd_config r with
  | Some _, _, _, _, _ => Some (no_field "ModelConfigModel" "model_path")
  | None, Some _, _, _, _ => Some (no_field "ModelConfigModel" "model_type")
  | None, None, Some _, _, _ => Some (no_field "ModelConfigModel" "description")
  | None, None, None, Some _, _ => Some (no_field "ModelConfigModel" "is_default")
  | None, None, None, None, Some _ => Some (no_attribute "ModelConfigModel" "config")
  | None, None, None, None, None => None
  end.

(** The message with which [load_model] refuses a registered name without
    handle, by the provider of its descriptor; [None] when it stores a
    handle. *)
Definition load_refusal `{PyRuntime} (p : ModelProvider) (client : bool)
    : option string :=
  match p with
  | HUGGINGFACE =>
      Some ("Failed to load model: " +:+ no_attribute "ModelConfigModel" "model_type")
  | OPENAI => if client then None else Some "OpenAI client not initialized"
  | OLLAMA | CUSTOM =>
      Some ("Failed to load model: " +:+ no_member "ModelProvider" "SENTENCE_TRANSFORMERS")
  end.

(** What the provider dispatch of [generate_text] does with the descriptor
    [c] and the handle [h] of the model named [n]. *)
Definition dispatch_text {W : Type} `{ProviderBackend W} `{PyRuntime}
    (n : string) (c : ModelConfigModel) (h : Handle)
    (request : TextGenerationRequestModel) (e : MEnv W)
    : (bool * string * option TextGenerationResponseModel) * MEnv W :=
  match provider c with
  | HUGGINGFACE =>
      let call := generate_with_huggingface h (prompt request) in
      match provider_generate call request (pworld e) with
      | (Returned (text, tokens), w) =>
          ((true, "Text generated successfully",
            Some (mkTextResponse text n tokens "completed")), pafter e [call] w)
      | (Raised msg, w) =>
          ((false, "Failed to generate text: " +:+ msg, None), pafter e [call] w)
      end
  | OPENAI =>
      ((false, "Failed to generate text: "
               +:+ no_attribute "ModelConfigModel" "model_path", None), e)
  | p =>
      ((false, "Text generation not supported for provider: " +:+ provider_value p,
        None), e)
  end.

(** The same for [generate_embedding]. *)
Definition dispatch_embedding {W : Type} `{ProviderBackend W} `{PyRuntime}
    (n : string) (c : ModelConfigModel) (h : Handle) (txt : string) (e : MEnv W)
    : (bool * string * option EmbeddingResponseModel) * MEnv W :=
  match provider c with
  | HUGGINGFACE =>
      let call := embed_with_huggingface h txt in
      match provider_embed call (pworld e) with
      | (Returned v, w) =>
          ((true, "Embedding generated successfully",
            Some (mkEmbeddingResponse v n (Z.of_nat (length v)))), pafter e [call] w)
      | (Raised msg, w) =>
          ((false, "Failed to generate embedding: " +:+ msg, None), pafter e [call] w)
      end
  | OPENAI =>
      ((false, "Failed to generate embedding: "
               +:+ no_attribute "ModelConfigModel" "model_path", None), e)
  | _ =>
      ((false, "Failed to generate embedding: "
               +:+ no_member "ModelProvider" "SENTENCE_TRANSFORMERS", None), e)
  end.

(** The environment after the store has answered the calls [cs] and is left
    in state [w]; the connection flag is not touched. *)
Definition aafter {W : Type} (e : AEnv W) (cs : list (VectorCall + AdminCall)) (w : W)
    : AEnv W :=
  mkAEnv (_connected e) w (acalls e ++ cs).

(** The two calls the index, deletion, query and maintenance methods start
    with. *)
Definition probe (n : string) : VectorCall + AdminCall := inl (utility_has_collection n).

Definition opened (n : string) : VectorCall + AdminCall := inl (Collection n None).

(** A method is blind to the connection flag when running it on a service
    whose flag is [b] gives what it gives on an unconnected one, with the
    flag still [b]. *)
Definition flag_blind {W R : Type} (f : AEnv W -> R * AEnv W) : Prop :=
  forall b w l,
    f (mkAEnv b w l)
    = ((f (mkAEnv false w l)).1,
       mkAEnv b (astore (f (mkAEnv false w l)).2) (acalls (f (mkAEnv false w l)).2)).

(** A connected service on the store without collections, on the store with
    the empty collection "c1", and on the store where "c1" holds "v1". *)
Definition service_empty : AEnv SimMilvus := mkAEnv true ∅ [].

Definition service_c1 : AEnv SimMilvus := mkAEnv true (vworld store_c1) [].

Definition service_c1_v1 : AEnv SimMilvus := mkAEnv true (vworld store_c1_v1) [].

(** * Properties *)

(** ** Facts about insertion-ordered dictionaries *)

Section PyDictFacts.
Context {V : Type}.
Implicit Types (d : PyDict.t V) (k : string) (v : V).

Lemma mem_get k d : PyDict.mem k d = true <-> is_Some (PyDict.get k d).
Proof.
  unfold PyDict.mem. destruct (PyDict.get k d); split; intros Hm;
    first [done | by eexists | by destruct Hm].
Qed.

Lemma mem_keys k d : PyDict.mem k d = true <-> k ∈ PyDict.keys d.
Proof.
  rewrite mem_get. unfold PyDict.keys.
  induction d as [|[k' v'] d IH]; simpl.
  - split; [by intros [? ?] | by intros ?%elem_of_nil].
  - rewrite elem_of_cons. destruct (decide (k' = k)) as [->|Hne].
    + split; [by left | by eexists].
    + rewrite IH. split; [by right | by intros [?|?]].
Qed.

Lemma get_set_eq k v d : PyDict.get k (PyDict.set k v d) = Some v.
Proof.
  induction d as [|[k' v'] d IH]; simpl.
  - by rewrite decide_True.
  - destruct (decide (k' = k)) as [->|Hne]; simpl.
    + by rewrite decide_True.
    + by rewrite decide_False.
Qed.

Lemma get_set_ne k k' v d :
  k' <> k -> PyDict.get k' (PyDict.set k v d) = PyDict.get k' d.
Proof.
  intros Hne. induction d as [|[k0 v0] d IH]; simpl.
  - by rewrite decide_False.
  - destruct (decide (k0 = k)) as [->|Hk]; simpl.
    + by rewrite !decide_False.
    + by rewrite IH.
Qed.

Lemma get_map_items (f : string -> V -> V) k d :
  PyDict.get k (PyDict.map_items f d) = f k <$> PyDict.get k d.
Proof.
  induction d as [|[k' v'] d IH]; simpl; [done|].
  destruct (decide (k' = k)) as [->|Hne]; [done | exact IH].
Qed.

Lemma get_del_eq k d : PyDict.get k (PyDict.del k d) = None.
Proof.
  induction d as [|[k' v'] d IH]; simpl; [done|].
  destruct (decide (k' = k)) as [Heq|Hne]; simpl; [exact IH|].
  by rewrite decide_False.
Qed.

Lemma get_del_ne k k' d :
  k' <> k -> PyDict.get k' (PyDict.del k d) = PyDict.get k' d.
Proof.
  intros Hne. induction d as [|[k0 v0] d IH]; simpl; [done|].
  destruct (decide (k0 = k)) as [->|Hk]; simpl.
  - by rewrite decide_False.
  - by rewrite IH.
Qed.

Lemma mem_set k k' v d :
  PyDict.mem k' (PyDict.set k v d) = true <-> k' = k \/ PyDict.mem k' d = true.
Proof.
  rewrite !mem_get. destruct (decide (k' = k)) as [->|Hne].
  - rewrite get_set_eq. split; [by left | by eexists].
  - rewrite get_set_ne by done. split; [by right | by intros [?|?]].
Qed.

Lemma mem_map_items (f : string -> V -> V) k d :
  PyDict.mem k (PyDict.map_items f d) = PyDict.mem k d.
Proof. unfold PyDict.mem. rewrite get_map_items. by destruct (PyDict.get k d). Qed.

Lemma mem_del k k' d :
  PyDict.mem k' (PyDict.del k d) = true <-> k' <> k /\ PyDict.mem k' d = true.
Proof.
  rewrite !mem_get. destruct (decide (k' = k)) as [->|Hne].
  - rewrite get_del_eq. split; [by intros [? ?] | by intros [? ?]].
  - rewrite get_del_ne by done. split; [done | by intros [? ?]].
Qed.

Lemma get_values k v d : PyDict.get k d = Some v -> v ∈ PyDict.values d.
Proof.
  unfold PyDict.values. induction d as [|[k' v'] d IH]; simpl; [done|].
  destruct (decide (k' = k)) as [->|Hne].
  - intros [= ->]. by left.
  - intros Hg. right. by apply IH.
Qed.
End PyDictFacts.

Section PyDictOrder.
Context {V : Type}.
Implicit Types (d : PyDict.t V) (k : string) (v : V).

Lemma keys_set_new k v d :
  PyDict.mem k d = false -> PyDict.keys (PyDict.set k v d) = (PyDict.keys d ++ [k])%list.
Proof.
  unfold PyDict.mem, PyDict.keys.
  induction d as [|[k' v'] d IH]; cbn [PyDict.get PyDict.set]; [done|].
  destruct (decide (k' = k)) as [->|Hne]; [done|].
  intros Hm. rewrite !fmap_cons, IH by done. done.
Qed.

Lemma keys_set_old k v d :
  PyDict.mem k d = true -> PyDict.keys (PyDict.set k v d) = PyDict.keys d.
Proof.
  unfold PyDict.mem, PyDict.keys.
  induction d as [|[k' v'] d IH]; cbn [PyDict.get PyDict.set]; [done|].
  destruct (decide (k' = k)) as [->|Hne]; [done|].
  intros Hm. rewrite !fmap_cons, IH by done. done.
Qed.

Lemma keys_map_items (f : string -> V -> V) d :
  PyDict.keys (PyDict.map_items f d) = PyDict.keys d.
Proof.
  unfold PyDict.keys, PyDict.map_items.
  induction d as [|[k' v'] d IH]; [done|].
  cbn [List.map]. rewrite !fmap_cons. by rewrite IH.
Qed.

Lemma keys_del k d :
  PyDict.keys (PyDict.del k d) = filter (fun k' => k' <> k) (PyDict.keys d).
Proof.
  unfold PyDict.keys.
  induction d as [|[k' v'] d IH]; [done|].
  cbn [PyDict.del]. rewrite fmap_cons, filter_cons. cbn [fst].
  destruct (decide (k' = k)) as [->|Hne].
  - by rewrite decide_False by (intros Hk; by apply Hk).
  - rewrite decide_True by done. by rewrite fmap_cons, IH.
Qed.

Lemma mem_false_get k d : PyDict.mem k d = false <-> PyDict.get k d = None.
Proof. unfold PyDict.mem. by destruct (PyDict.get k d). Qed.
End PyDictOrder.

(** ** Equations of the monad *)

Lemma bind_gets {S A B : Type} (f : S -> A) (k : A -> Prog S B) (s : S) :
  bind (gets f) k s = k (f s) s.
Proof. reflexivity. Qed.

Lemma bind_ret {S A B : Type} (a : A) (k : A -> Prog S B) (s : S) :
  bind (ret a) k s = k a s.
Proof. reflexivity. Qed.

Lemma bind_raise {S A B : Type} (msg : string) (k : A -> Prog S B) (s : S) :
  bind (raise msg) k s = (Raised msg, s).
Proof. reflexivity. Qed.

(** ** The registry methods that read no descriptor *)

Lemma unload_model_models n s : models (unload_model n s).2 = models s.
Proof. unfold unload_model. by destruct (loaded_models s !! n). Qed.


Lemma unload_model_lookup n s : loaded_models (unload_model n s).2 !! n = None.
Proof.
  unfold unload_model. destruct (loaded_models s !! n) eqn:Hn; simpl; [|done].
  apply lookup_delete_eq.
Qed.

Lemma unload_model_lookup_ne n k s :
  k <> n -> loaded_models (unload_model n s).2 !! k = loaded_models s !! k.
Proof.
  intros Hne. unfold unload_model. destruct (loaded_models s !! n); simpl; [|done].
  by apply lookup_delete_ne.
Qed.

(** [if name in self.loaded_models: self.unload_model(name)] is
    [unload_model], which does nothing for a name that is not loaded. *)
Lemma guarded_unload n s :
  (if bool_decide (is_Some (loaded_models s !! n))
   then (unload_model n s).2 else s) = (unload_model n s).2.
Proof.
  case_bool_decide as Hl; [done|]. unfold unload_model.
  destruct (loaded_models s !! n); [|done]. destruct Hl. by eexists.
Qed.

Lemma cache_registered_unload n s :
  cache_registered s -> cache_registered (unload_model n s).2.
Proof.
  intros Hinv. unfold unload_model.
  destruct (loaded_models s !! n); [|done].
  intros k Hk. simpl in *. apply Hinv.
  destruct (decide (k = n)) as [->|Hne].
  - rewrite lookup_delete_eq in Hk. by destruct Hk.
  - by rewrite lookup_delete_ne in Hk.
Qed.

Lemma cache_registered_unregister n s :
  cache_registered s -> cache_registered (unregister_model n s).2.
Proof.
  intros Hinv. unfold unregister_model.
  destruct (PyDict.mem n (models s)); cbn [negb]; [|done].
  cbv zeta. rewrite guarded_unload. intros k Hk. simpl in *.
  rewrite unload_model_models. apply mem_del.
  destruct (decide (k = n)) as [->|Hne].
  - rewrite unload_model_lookup in Hk. by destruct Hk.
  - split; [done|]. apply Hinv. by rewrite unload_model_lookup_ne in Hk.
Qed.

(** ** [register_model], [update_model] and [get_default_model] *)

Section RegistryFacts.
Context `{PyRuntime}.
Implicit Types (s : ModelService) (n : string).

(** The first statement of the [try] block raises, and so does the handler. *)
Lemma register_model_raises request s :
  register_model request s
  = (Raised (no_attribute "RegisterModelRequestModel" "name"), s).
Proof. reflexivity. Qed.

Lemma provider_assigned_eq r s :
  match upd_provider r with
  | Some p => assign_provider (upd_name r) p s
  | None => s
  end = provider_assigned r s.
Proof. unfold provider_assigned, assign_provider. by destruct (upd_provider r). Qed.

Lemma provider_assigned_keys r s :
  PyDict.keys (models (provider_assigned r s)) = PyDict.keys (models s).
Proof.
  unfold provider_assigned. destruct (upd_provider r) as [p|]; [|done].
  destruct (PyDict.get (upd_name r) (models s)) as [c|] eqn:Hget; [|done].
  cbn [models set_models]. apply keys_set_old, mem_get. by rewrite Hget.
Qed.

Lemma provider_assigned_mem r s k :
  PyDict.mem k (models (provider_assigned r s)) = PyDict.mem k (models s).
Proof.
  pose proof (provider_assigned_keys r s) as Hkeys.
  destruct (PyDict.mem k (models s)) eqn:Hk.
  - apply mem_keys. rewrite Hkeys. by apply mem_keys.
  - destruct (PyDict.mem k (models (provider_assigned r s))) eqn:Hk'; [|done].
    apply mem_keys in Hk'. rewrite Hkeys in Hk'. apply mem_keys in Hk'. congruence.
Qed.

Lemma provider_assigned_loaded r s :
  loaded_models (provider_assigned r s) = loaded_models s.
Proof.
  unfold provider_assigned. destruct (upd_provider r); [|done].
  by destruct (PyDict.get (upd_name r) (models s)).
Qed.


Lemma provider_assigned_get r s c :
  get_model (upd_name r) s = Some c ->
  get_model (upd_name r) (provider_assigned r s)
  = Some (set_provider (default (provider c) (upd_provider r)) c).
Proof.
  unfold provider_assigned, get_model. intros Hget.
  destruct (upd_provider r) as [p|]; cbn [default].
  - rewrite Hget. cbn [models set_models]. by rewrite get_set_eq.
  - rewrite Hget. by destruct c.
Qed.

Lemma provider_assigned_get_ne r s k :
  k <> upd_name r -> get_model k (provider_assigned r s) = get_model k s.
Proof.
  unfold provider_assigned, get_model. intros Hne.
  destruct (upd_provider r) as [p|]; [|done].
  destruct (PyDict.get (upd_name r) (models s)); [|done].
  cbn [models set_models]. by rewrite get_set_ne.
Qed.

(** Every path through [update_model]. *)
Lemma update_model_cases r s :
  update_model r s
  = match get_model (upd_name r) s with
    | None => ((false, "Model " +:+ upd_name r +:+ " not found"), s)
    | Some _ =>
        match update_refusal r with
        | Some words =>
            ((false, "Failed to update model: " +:+ words), provider_assigned r s)
        | None =>
            ((true, "Model " +:+ upd_name r +:+ " updated successfully"),
             (unload_model (upd_name r) (provider_assigned r s)).2)
        end
    end.
Proof.
  unfold update_model, get_model, try_except. rewrite bind_gets.
  unfold PyDict.mem. cbv beta.
  destruct (PyDict.get (upd_name r) (models s)) as [c|] eqn:Hget; cbn [negb]; [|done].
  rewrite <- provider_assigned_eq. unfold update_refusal.
  destruct r as [n [p|] [path|] [mtype|] [descr|] [[]|] [cfg|]];
    cbn [upd_name upd_provider upd_model_path upd_model_type upd_description
         upd_is_default upd_config] in *;
    try reflexivity.
  all: unfold bind, when_given, modify, subscript, ret, gets, lift; cbv beta iota.
  all: match goal with
       | |- context [is_model_loaded ?k ?s0] =>
           rewrite <- (guarded_unload k s0); unfold is_model_loaded;
           destruct (bool_decide (is_Some (loaded_models s0 !! k)));
           [by destruct (unload_model k s0) as [[? ?] ?] | done]
       end.
Qed.

Lemma cache_registered_update r s :
  cache_registered s -> cache_registered (update_model r s).2.
Proof.
  intros Hinv.
  assert (Hassigned : cache_registered (provider_assigned r s)).
  { intros k Hk. rewrite provider_assigned_mem. apply Hinv.
    by rewrite provider_assigned_loaded in Hk. }
  rewrite update_model_cases. destruct (get_model (upd_name r) s); [|done].
  destruct (update_refusal r); [done|]. by apply cache_registered_unload.
Qed.

(** [get_default_model] returns nothing on an empty registry and raises on
    the first descriptor otherwise. *)
Lemma get_default_model_cases mtype s :
  get_default_model mtype s
  = (match PyDict.values (models s) with
     | [] => Returned None
     | _ :: _ => Raised (no_attribute "ModelConfigModel" "model_type")
     end, s).
Proof.
  unfold get_default_model. rewrite bind_gets. cbv beta.
  by destruct (PyDict.values (models s)).
Qed.
End RegistryFacts.

(** ** The loader and the dispatchers, path by path *)

Section LoaderFacts.
Context {W : Type} `{ProviderBackend W} `{PyRuntime}.
Implicit Types (e : MEnv W) (n : string) (s : ModelService).

Lemma set_svc_svc e : set_svc (svc e) e = e.
Proof. by destruct e. Qed.

Lemma bind_enum_huggingface {S B : Type} (k : ModelProvider -> Prog S B) (s : S) :
  bind (enum_member "HUGGINGFACE") k s = k HUGGINGFACE s.
Proof. reflexivity. Qed.

Lemma bind_enum_openai {S B : Type} (k : ModelProvider -> Prog S B) (s : S) :
  bind (enum_member "OPENAI") k s = k OPENAI s.
Proof. reflexivity. Qed.

(** The enumeration has no member of this name. *)
Lemma bind_enum_sentence_transformers {S B : Type}
    (k : ModelProvider -> Prog S B) (s : S) :
  bind (enum_member "SENTENCE_TRANSFORMERS") k s
  = (Raised (no_member "ModelProvider" "SENTENCE_TRANSFORMERS"), s).
Proof. reflexivity. Qed.

Lemma bind_pcall {A B : Type} (call : ProviderCall) (op : W -> Outcome A * W)
    (k : A -> Prog (MEnv W) B) e :
  bind (pcall call op) k e
  = match op (pworld e) with
    | (Returned a, w) => k a (pafter e [call] w)
    | (Raised msg, w) => (Raised msg, pafter e [call] w)
    end.
Proof. unfold bind, pcall, pafter. by destruct (op (pworld e)) as [[a|msg] w]. Qed.

(** [_load_huggingface_model] raises on its first statement. *)
Lemma load_huggingface_raises c e :
  _load_huggingface_model c e
  = (Raised (no_attribute "ModelConfigModel" "model_type"), e).
Proof. reflexivity. Qed.

(** Every path through [load_model]. *)
Lemma load_model_cases n e :
  load_model n e
  = match get_model n (svc e) with
    | None => ((false, "Model " +:+ n +:+ " not found"), e)
    | Some c =>
        if is_model_loaded n (svc e) then
          ((true, "Model " +:+ n +:+ " already loaded"), e)
        else
          match load_refusal (provider c) (openai_client (svc e)) with
          | Some message => ((false, message), e)
          | None =>
              ((true, "Model " +:+ n +:+ " loaded successfully"),
               loaded_env e n OpenAIHandle)
          end
    end.
Proof.
  unfold load_model, try_except, get_model. rewrite bind_gets.
  destruct (PyDict.get n (models (svc e))) as [c|]; [|done].
  destruct (is_model_loaded n (svc e)); [done|].
  rewrite bind_enum_huggingface. unfold load_refusal.
  destruct (provider c).
  - rewrite decide_False by done. rewrite bind_enum_openai, decide_True by done.
    by destruct (openai_client (svc e)).
  - rewrite decide_True by done. unfold bind at 1. by rewrite load_huggingface_raises.
  - rewrite decide_False by done. rewrite bind_enum_openai, decide_False by done.
    by rewrite bind_enum_sentence_transformers.
  - rewrite decide_False by done. rewrite bind_enum_openai, decide_False by done.
    by rewrite bind_enum_sentence_transformers.
Qed.

(** [load_model] never calls the backend and changes at most the handle of
    the name it is given. *)
Lemma load_model_env n e :
  (load_model n e).2 = e \/
  (PyDict.mem n (models (svc e)) = true /\
   (load_model n e).2 = loaded_env e n OpenAIHandle).
Proof.
  rewrite load_model_cases. unfold get_model.
  destruct (PyDict.get n (models (svc e))) as [c|] eqn:Hget; [|by left].
  destruct (is_model_loaded n (svc e)); [by left|].
  destruct (load_refusal _ _); [by left|]. right. split; [|done].
  apply mem_get. by rewrite Hget.
Qed.

Lemma load_model_success n e msg e' :
  load_model n e = ((true, msg), e') ->
  is_Some (get_model n (svc e')) /\ is_model_loaded n (svc e') = true.
Proof.
  rewrite load_model_cases.
  destruct (get_model n (svc e)) as [c|] eqn:Hget; [|done].
  destruct (is_model_loaded n (svc e)) eqn:Hl.
  - intros [= _ <-]. split; [by eexists | done].
  - destruct (load_refusal _ _); [done|]. intros [= _ <-].
    split; [by eexists|]. apply bool_decide_eq_true. simpl.
    rewrite lookup_insert_eq. by eexists.
Qed.

(** Every path through the block between name resolution and provider
    dispatch. *)
Lemma ensure_loaded_cases n e :
  ensure_loaded n e
  = match get_model n (svc e) with
    | None => (Returned (inl ("Model " +:+ n +:+ " not found")), e)
    | Some c =>
        match loaded_models (svc e) !! n with
        | Some h => (Returned (inr (c, h)), e)
        | None =>
            match load_refusal (provider c) (openai_client (svc e)) with
            | Some message => (Returned (inl message), e)
            | None => (Returned (inr (c, OpenAIHandle)), loaded_env e n OpenAIHandle)
            end
        end
    end.
Proof.
  unfold ensure_loaded. rewrite bind_gets. unfold get_model, PyDict.mem.
  destruct (PyDict.get n (models (svc e))) as [c|] eqn:Hget; cbn [negb]; [|done].
  unfold is_model_loaded.
  destruct (loaded_models (svc e) !! n) as [h|] eqn:Hl.
  - rewrite bool_decide_eq_true_2 by (by eexists). cbn [negb].
    rewrite bind_ret. cbn [fst negb]. rewrite bind_gets.
    by rewrite Hget, Hl.
  - rewrite bool_decide_eq_false_2 by (by intros [? ?]). cbn [negb].
    unfold bind at 1, lift. rewrite load_model_cases. unfold get_model, is_model_loaded.
    rewrite Hget, Hl. rewrite bool_decide_eq_false_2 by (by intros [? ?]).
    destruct (load_refusal _ _) as [message|]; [done|].
    cbn [fst snd negb]. rewrite bind_gets. cbn [svc loaded_env models set_loaded_models
      loaded_models]. rewrite Hget, lookup_insert_eq. done.
Qed.

(** Name resolution: the given name, or the outcome of the default lookup. *)
Lemma resolve_model_name_cases requested mtype e :
  resolve_model_name requested mtype e
  = match given requested with
    | Some n => (Returned (Some n), e)
    | None =>
        match PyDict.values (models (svc e)) with
        | [] => (Returned None, e)
        | _ :: _ => (Raised (no_attribute "ModelConfigModel" "model_type"), e)
        end
    end.
Proof.
  unfold resolve_model_name. destruct (given requested); [done|].
  unfold bind, on_service. rewrite get_default_model_cases.
  destruct (PyDict.values (models (svc e))); by rewrite set_svc_svc.
Qed.

Lemma dispatch_text_eq n c h request e :
  (let respond '(text, tokens) :=
     ret (true, "Text generated successfully",
          Some (mkTextResponse text n tokens "completed")) in
   try_except
     (let* huggingface := enum_member "HUGGINGFACE" in
      if decide (provider c = huggingface) then
        let call := generate_with_huggingface h (prompt request) in
        let* r := pcall call (provider_generate call request) in
        respond r
      else
        let* openai := enum_member "OPENAI" in
        if decide (provider c = openai) then
          let* (model_path : string) :=
            read_undeclared "ModelConfigModel" "model_path" in
          let call := generate_with_openai model_path (prompt request) in
          let* r := pcall call (provider_generate call request) in
          respond r
        else
          ret (false,
               "Text generation not supported for provider: "
               +:+ provider_value (provider c),
               None))%prog
     (fun msg => (false, "Failed to generate text: " +:+ msg, None)) e)
  = dispatch_text n c h request e.
Proof.
  cbv zeta. unfold try_except, dispatch_text. rewrite bind_enum_huggingface.
  destruct (provider c).
  - rewrite decide_False by done. rewrite bind_enum_openai, decide_True by done. done.
  - rewrite decide_True by done. rewrite bind_pcall.
    by destruct (provider_generate _ _ _) as [[[text tokens]|msg] w].
  - rewrite decide_False by done. by rewrite bind_enum_openai, decide_False by done.
  - rewrite decide_False by done. by rewrite bind_enum_openai, decide_False by done.
Qed.

(** Every path through [generate_text]. *)
Lemma generate_text_cases request e :
  generate_text request e
  = match given (text_model_name request) with
    | None =>
        match PyDict.values (models (svc e)) with
        | [] => ((false, "No default generation model available", None), e)
        | _ :: _ =>
            ((false, "Failed to generate text: "
                     +:+ no_attribute "ModelConfigModel" "model_type", None), e)
        end
    | Some n =>
        match get_model n (svc e) with
        | None => ((false, "Model " +:+ n +:+ " not found", None), e)
        | Some c =>
            match loaded_models (svc e) !! n with
            | Some h => dispatch_text n c h request e
            | None =>
                match load_refusal (provider c) (openai_client (svc e)) with
                | Some message => ((false, message, None), e)
                | None =>
                    dispatch_text n c OpenAIHandle request (loaded_env e n OpenAIHandle)
                end
            end
        end
    end.
Proof.
  unfold generate_text. unfold try_except at 1. unfold bind at 1.
  rewrite resolve_model_name_cases.
  destruct (given (text_model_name request)) as [n|].
  - unfold bind at 1. rewrite ensure_loaded_cases.
    destruct (get_model n (svc e)) as [c|]; [|done].
    destruct (loaded_models (svc e) !! n) as [h|].
    + apply (dispatch_text_eq n c h request e).
    + destruct (load_refusal _ _) as [message|]; [done|].
      apply (dispatch_text_eq n c OpenAIHandle request).
  - by destruct (PyDict.values (models (svc e))).
Qed.

Lemma dispatch_embedding_eq n c h txt e :
  (let respond (embedding : list float) :=
     ret (true, "Embedding generated successfully",
          Some (mkEmbeddingResponse embedding n (Z.of_nat (length embedding)))) in
   try_except
     (let* huggingface := enum_member "HUGGINGFACE" in
      if decide (provider c = huggingface) then
        let call := embed_with_huggingface h txt in
        let* r := pcall call (provider_embed call) in
        respond r
      else
        let* openai := enum_member "OPENAI" in
        if decide (provider c = openai) then
          let* (model_path : string) :=
            read_undeclared "ModelConfigModel" "model_path" in
          let call := embed_with_openai model_path txt in
          let* r := pcall call (provider_embed call) in
          respond r
        else
          let* sentence_transformers := enum_member "SENTENCE_TRANSFORMERS" in
          if decide (provider c = sentence_transformers) then
            let call := embed_with_sentence_transformers h txt in
            let* r := pcall call (provider_embed call) in
            respond r
          else
            ret (false,
                 "Embedding not supported for provider: "
                 +:+ provider_value (provider c),
                 None))%prog
     (fun msg => (false, "Failed to generate embedding: " +:+ msg, None)) e)
  = dispatch_embedding n c h txt e.
Proof.
  cbv zeta. unfold try_except, dispatch_embedding. rewrite bind_enum_huggingface.
  destruct (provider c).
  - rewrite decide_False by done. rewrite bind_enum_openai, decide_True by done. done.
  - rewrite decide_True by done. rewrite bind_pcall.
    by destruct (provider_embed _ _) as [[v|msg] w].
  - rewrite decide_False by done. rewrite bind_enum_openai, decide_False by done.
    by rewrite bind_enum_sentence_transformers.
  - rewrite decide_False by done. rewrite bind_enum_openai, decide_False by done.
    by rewrite bind_enum_sentence_transformers.
Qed.

(** Every path through [generate_embedding]. *)
Lemma generate_embedding_cases request e :
  generate_embedding request e
  = match given (embedding_model_name request) with
    | None =>
        match PyDict.values (models (svc e)) with
        | [] => ((false, "No default embedding model available", None), e)
        | _ :: _ =>
            ((false, "Failed to generate embedding: "
                     +:+ no_attribute "ModelConfigModel" "model_type", None), e)
        end
    | Some n =>
        match get_model n (svc e) with
        | None => ((false, "Model " +:+ n +:+ " not found", None), e)
        | Some c =>
            match loaded_models (svc e) !! n with
            | Some h => dispatch_embedding n c h (embedding_text request) e
            | None =>
                match load_refusal (provider c) (openai_client (svc e)) with
                | Some message => ((false, message, None), e)
                | None =>
                    dispatch_embedding n c OpenAIHandle (embedding_text request)
                      (loaded_env e n OpenAIHandle)
                end
            end
        end
    end.
Proof.
  unfold generate_embedding. unfold try_except at 1. unfold bind at 1.
  rewrite resolve_model_name_cases.
  destruct (given (embedding_model_name request)) as [n|].
  - unfold bind at 1. rewrite ensure_loaded_cases.
    destruct (get_model n (svc e)) as [c|]; [|done].
    destruct (loaded_models (svc e) !! n) as [h|].
    + apply (dispatch_embedding_eq n c h (embedding_text request) e).
    + destruct (load_refusal _ _) as [message|]; [done|].
      apply (dispatch_embedding_eq n c OpenAIHandle (embedding_text request)).
  - by destruct (PyDict.values (models (svc e))).
Qed.
End LoaderFacts.

(** ** Runs of the model service *)

Section RunFacts.
Context {W : Type} `{ProviderBackend W} `{PyRuntime}.
Implicit Types (e : MEnv W) (n : string) (s : ModelService).

Lemma reachable_run ops e : reachable e -> reachable (run ops e).
Proof.
  revert e. induction ops as [|op ops IH]; intros e He; simpl; [done|].
  apply IH. by constructor.
Qed.

(** No call of [register_model] changes the service object. *)
Lemma perform_register request e : perform (Register request) e = e.
Proof. unfold perform, on_svc. rewrite register_model_raises. apply set_svc_svc. Qed.

Lemma extends_refl s : extends s s.
Proof. split; [done | by left]. Qed.

Lemma extends_cache_registered s s' :
  cache_registered s -> extends s s' -> cache_registered s'.
Proof.
  intros Hinv [Hkeys Hl] k Hk. apply mem_keys. rewrite Hkeys. apply mem_keys.
  destruct (Hl k Hk) as [Hk'|Hk']; [by apply Hinv | done].
Qed.

Lemma extends_loaded_env e n h :
  PyDict.mem n (models (svc e)) = true -> extends (svc e) (svc (loaded_env e n h)).
Proof.
  intros Hmem. split; [done|]. intros k Hk. simpl in Hk.
  destruct (decide (k = n)) as [->|Hne]; [by right|].
  left. by rewrite lookup_insert_ne in Hk.
Qed.

Lemma extends_load_model n e : extends (svc e) (svc (load_model n e).2).
Proof.
  destruct (load_model_env n e) as [->|[Hmem ->]].
  - apply extends_refl.
  - by apply extends_loaded_env.
Qed.

Lemma dispatch_text_svc n c h request e :
  svc (dispatch_text n c h request e).2 = svc e.
Proof.
  unfold dispatch_text. destruct (provider c); try done.
  by destruct (provider_generate _ _ _) as [[[text tokens]|msg] w].
Qed.

Lemma dispatch_embedding_svc n c h txt e :
  svc (dispatch_embedding n c h txt e).2 = svc e.
Proof.
  unfold dispatch_embedding. destruct (provider c); try done.
  by destruct (provider_embed _ _) as [[v|msg] w].
Qed.

Lemma extends_generate_text request e :
  extends (svc e) (svc (generate_text request e).2).
Proof.
  rewrite generate_text_cases.
  destruct (given (text_model_name request)) as [n|].
  - unfold get_model. destruct (PyDict.get n (models (svc e))) as [c|] eqn:Hget;
      [|apply extends_refl].
    destruct (loaded_models (svc e) !! n) as [h|].
    + rewrite dispatch_text_svc. apply extends_refl.
    + destruct (load_refusal _ _); [apply extends_refl|].
      rewrite dispatch_text_svc. apply extends_loaded_env, mem_get. by rewrite Hget.
  - destruct (PyDict.values (models (svc e))); apply extends_refl.
Qed.

Lemma extends_generate_embedding request e :
  extends (svc e) (svc (generate_embedding request e).2).
Proof.
  rewrite generate_embedding_cases.
  destruct (given (embedding_model_name request)) as [n|].
  - unfold get_model. destruct (PyDict.get n (models (svc e))) as [c|] eqn:Hget;
      [|apply extends_refl].
    destruct (loaded_models (svc e) !! n) as [h|].
    + rewrite dispatch_embedding_svc. apply extends_refl.
    + destruct (load_refusal _ _); [apply extends_refl|].
      rewrite dispatch_embedding_svc. apply extends_loaded_env, mem_get. by rewrite Hget.
  - destruct (PyDict.values (models (svc e))); apply extends_refl.
Qed.

(** Every operation preserves the invariant, from whatever state. *)
Lemma cache_registered_perform op e :
  cache_registered (svc e) -> cache_registered (svc (perform op e)).
Proof.
  intros Hinv. destruct op.
  - by rewrite perform_register.
  - by apply cache_registered_update.
  - by apply cache_registered_unregister.
  - eapply extends_cache_registered; [exact Hinv | apply extends_load_model].
  - by apply cache_registered_unload.
  - eapply extends_cache_registered; [exact Hinv | apply extends_generate_text].
  - eapply extends_cache_registered; [exact Hinv | apply extends_generate_embedding].
Qed.

Lemma cache_registered_run ops e :
  cache_registered (svc e) -> cache_registered (svc (run ops e)).
Proof.
  revert e. induction ops as [|op ops IH]; intros e Hinv; simpl; [done|].
  by apply IH, cache_registered_perform.
Qed.

Lemma cache_registered_initial has_key (w : W) :
  cache_registered (svc (initial has_key w)).
Proof. intros k [h Hk]. simpl in Hk. by rewrite lookup_empty in Hk. Qed.

Lemma perform_initial op has_key (w : W) :
  perform op (initial has_key w) = initial has_key w.
Proof.
  destruct op as [request|request|n|n|n|request|request].
  - apply perform_register.
  - unfold perform, on_svc. by rewrite update_model_cases.
  - done.
  - unfold perform. by rewrite load_model_cases.
  - done.
  - unfold perform. rewrite generate_text_cases.
    by destruct (given (text_model_name request)).
  - unfold perform. rewrite generate_embedding_cases.
    by destruct (given (embedding_model_name request)).
Qed.

(** No sequence of operations changes a fresh service. *)
Lemma run_initial ops has_key (w : W) :
  run ops (initial has_key w) = initial has_key w.
Proof.
  induction ops as [|op ops IH]; [done|].
  cbn [run foldl]. rewrite perform_initial. exact IH.
Qed.

(** *** The claims about the registry, the loader and the dispatchers *)


(** C9.  In every state reached from the initial service by any sequence of
    register, update, unregister, load, unload, generate-text and
    generate-embedding operations, against any provider backend, the keys of
    the handle cache form a subset of the keys of the registry. *)
Theorem loaded_names_are_registered (has_key : bool) (w : W) (ops : list Operation) :
  let s := svc (run ops (initial has_key w)) in
  dom (loaded_models s) ⊆ (list_to_set (PyDict.keys (models s)) : gset string).
Proof.
  intros s k Hk. apply elem_of_list_to_set, mem_keys.
  apply (cache_registered_run ops (initial has_key w)).
  - apply cache_registered_initial.
  - by apply elem_of_dom.
Qed.

(** C6.  In every state whose cached names are all registered (as they are
    in every reachable state, C9), [load_model] of a name whose handle is in
    the cache returns success and leaves the whole environment as it was:
    the cache, the registry, the backend and the call log, so no backend
    call is made.  A second [load_model] after a successful one is such a
    no-op. *)
Theorem load_model_cached n e :
  cache_registered (svc e) ->
  (is_model_loaded n (svc e) = true ->
   load_model n e = ((true, "Model " +:+ n +:+ " already loaded"), e)) /\
  (forall msg e', load_model n e = ((true, msg), e') ->
   load_model n e' = ((true, "Model " +:+ n +:+ " already loaded"), e')).
Proof.
  intros Hinv.
  assert (Hhit : forall e0 : MEnv W,
    is_Some (get_model n (svc e0)) ->
    is_model_loaded n (svc e0) = true ->
    load_model n e0 = ((true, "Model " +:+ n +:+ " already loaded"), e0)).
  { intros e0 [c Hc] Hl. rewrite load_model_cases. by rewrite Hc, Hl. }
  split.
  - intros Hl. apply Hhit; [|done]. apply mem_get, Hinv.
    by apply bool_decide_eq_true in Hl.
  - intros msg e' Hload. apply load_model_success in Hload as [Hreg Hl].
    by apply Hhit.
Qed.



End RunFacts.

(** *** The claims on concrete services *)

Lemma load_model_cached_witness :
  cache_registered (svc gpt35_loaded) /\
  (is_model_loaded "gpt-3.5-turbo" (svc gpt35_loaded) = true /\
   load_model "gpt-3.5-turbo" gpt35_loaded
   = ((true, "Model gpt-3.5-turbo already loaded"), gpt35_loaded)) /\
  (load_model "gpt-3.5-turbo" gpt35_registered
   = ((true, "Model gpt-3.5-turbo loaded successfully"), gpt35_loaded) /\
   load_model "gpt-3.5-turbo" gpt35_loaded
   = ((true, "Model gpt-3.5-turbo already loaded"), gpt35_loaded)).
Proof.
  assert (Hinv : cache_registered (svc gpt35_loaded)).
  { intros k [h Hk]. vm_compute in Hk.
    destruct (decide (k = "gpt-3.5-turbo")) as [->|Hne]; [done|].
    change (({["gpt-3.5-turbo" := OpenAIHandle]} : gmap string Handle) !! k = Some h)
      in Hk.
    by rewrite lookup_singleton_ne in Hk. }
  assert (Hempty : cache_registered (svc gpt35_registered)).
  { intros k [h Hk]. simpl in Hk. by rewrite lookup_empty in Hk. }
  split; [exact Hinv|]. split; split.
  - vm_compute. reflexivity.
  - apply (proj1 (load_model_cached "gpt-3.5-turbo" gpt35_loaded Hinv)).
    vm_compute. reflexivity.
  - vm_compute. reflexivity.
  - apply (proj2 (load_model_cached "gpt-3.5-turbo" gpt35_registered Hempty)
             "Model gpt-3.5-turbo loaded successfully").
    vm_compute. reflexivity.
Defined.




(** ** The vector service *)

Section VectorFacts.
Context {W : Type} `{VectorStoreBackend W}.
Implicit Types (e : VEnv W) (n : string).

Lemma bind_vcall {A B : Type} (c : VectorCall)
    (answer : VectorCall -> W -> Outcome A * W) (k : A -> Prog (VEnv W) B) e :
  bind (vcall c answer) k e
  = match answer c (vworld e) with
    | (Returned a, w) => k a (after e [c] w)
    | (Raised msg, w) => (Raised msg, after e [c] w)
    end.
Proof. unfold bind, vcall. by destruct (answer c (vworld e)) as [[a|msg] w]. Qed.

Lemma after_after e cs cs' w w' : after (after e cs w) cs' w' = after e (cs ++ cs') w'.
Proof. unfold after. simpl. by rewrite app_assoc. Qed.

(** Every path through [create_collection], for any dimension. *)
Lemma create_collection_cases n description vector_dim index_params e :
  let has := utility_has_collection n in
  let new := Collection n (Some (created_schema description vector_dim)) in
  let idx := Collection_create_index n "vector" (index_params_dict index_params) in
  let failed msg := (false, "Failed to create collection: " +:+ msg) in
  create_collection n description vector_dim index_params e
  = match answer_bool has (vworld e) with
    | (Raised msg, w1) => (failed msg, after e [has] w1)
    | (Returned true, w1) =>
        ((false, "Collection " +:+ n +:+ " already exists"), after e [has] w1)
    | (Returned false, w1) =>
        match answer_unit new w1 with
        | (Raised msg, w2) => (failed msg, after e [has; new] w2)
        | (Returned _, w2) =>
            match answer_unit idx w2 with
            | (Raised msg, w3) => (failed msg, after e [has; new; idx] w3)
            | (Returned _, w3) =>
                ((true, "Collection " +:+ n +:+ " created successfully"),
                 after e [has; new; idx] w3)
            end
        end
    end.
Proof.
  intros has new idx failed. unfold create_collection, try_except.
  rewrite bind_vcall. fold has.
  destruct (answer_bool has (vworld e)) as [[[]|msg] w1]; [done| |done].
  rewrite bind_vcall. cbn [vworld after]. fold (created_schema description vector_dim).
  fold new. destruct (answer_unit new w1) as [[[]|msg] w2];
    rewrite ?after_after; [|done].
  rewrite bind_vcall. cbn [vworld after]. fold idx.
  destruct (answer_unit idx w2) as [[[]|msg] w3]; by rewrite ?after_after.
Qed.

Lemma insert_cases : write_cases insert Collection_insert "insert" "Inserted".
Proof.
  intros n vectors e has open write failed. unfold insert, try_except.
  rewrite bind_vcall. fold has.
  destruct (answer_bool has (vworld e)) as [[[]|msg] w1]; cbn [negb]; [|done|done].
  rewrite bind_vcall. cbn [vworld after]. fold open.
  destruct (answer_unit open w1) as [[[]|msg] w2]; rewrite ?after_after; [|done].
  rewrite bind_vcall. cbn [vworld after]. fold write.
  destruct (answer_keys write w2) as [[keys|msg] w3]; by rewrite ?after_after.
Qed.

Lemma upsert_cases : write_cases upsert Collection_upsert "upsert" "Upserted".
Proof.
  intros n vectors e has open write failed. unfold upsert, try_except.
  rewrite bind_vcall. fold has.
  destruct (answer_bool has (vworld e)) as [[[]|msg] w1]; cbn [negb]; [|done|done].
  rewrite bind_vcall. cbn [vworld after]. fold open.
  destruct (answer_unit open w1) as [[[]|msg] w2]; rewrite ?after_after; [|done].
  rewrite bind_vcall. cbn [vworld after]. fold write.
  destruct (answer_keys write w2) as [[keys|msg] w3]; by rewrite ?after_after.
Qed.

(** C5 (as amended).  [create_collection] has no check of its own on the
    dimension.  With [vector_dim <= 0] its first action is still the
    backend query [utility.has_collection]; when the name is free it goes
    on to the backend creation of the collection with that dimension in the
    schema, succeeds if the backend accepts the creation and the index, and
    fails with "Failed to create collection: ..." when the backend raises. *)
Theorem create_collection_dimension_unchecked n description vector_dim index_params e :
  (vector_dim <= 0)%Z ->
  let r := create_collection n description vector_dim index_params e in
  let has := utility_has_collection n in
  let new := Collection n (Some (created_schema description vector_dim)) in
  let idx := Collection_create_index n "vector" (index_params_dict index_params) in
  (exists rest, vcalls r.2 = (vcalls e ++ has :: rest)%list) /\
  (forall w1, answer_bool has (vworld e) = (Returned false, w1) ->
     (exists rest, vcalls r.2 = (vcalls e ++ has :: new :: rest)%list) /\
     (forall w2 w3,
        answer_unit new w1 = (Returned tt, w2) ->
        answer_unit idx w2 = (Returned tt, w3) ->
        r = ((true, "Collection " +:+ n +:+ " created successfully"),
             after e [has; new; idx] w3)) /\
     (forall msg w2,
        answer_unit new w1 = (Raised msg, w2) ->
        r = ((false, "Failed to create collection: " +:+ msg),
             after e [has; new] w2))).
Proof.
  intros _ r has new idx. subst r.
  rewrite create_collection_cases. fold has new idx. split.
  - destruct (answer_bool has (vworld e)) as [[[]|msg] w1]; [by eexists| |by eexists].
    destruct (answer_unit new w1) as [[[]|msg] w2]; [|by eexists].
    destruct (answer_unit idx w2) as [[[]|msg] w3]; by eexists.
  - intros w1 ->. split; [|split].
    + destruct (answer_unit new w1) as [[[]|msg] w2]; [|by eexists].
      destruct (answer_unit idx w2) as [[[]|msg] w3]; by eexists.
    + by intros w2 w3 -> ->.
    + by intros msg w2 ->.
Qed.

(** C2 (as amended).  When the name is free, the backend creates the
    collection and the creation of the index raises, [create_collection]
    returns the failure "Failed to create collection: ..." having made three
    backend calls: the query, the creation and the index.  It makes no call
    to drop the collection, and the backend is left as the failed index
    call left it. *)
Theorem create_collection_index_failure n description vector_dim index_params
    e w1 w2 w3 msg :
  let has := utility_has_collection n in
  let new := Collection n (Some (created_schema description vector_dim)) in
  let idx := Collection_create_index n "vector" (index_params_dict index_params) in
  answer_bool has (vworld e) = (Returned false, w1) ->
  answer_unit new w1 = (Returned tt, w2) ->
  answer_unit idx w2 = (Raised msg, w3) ->
  create_collection n description vector_dim index_params e
  = ((false, "Failed to create collection: " +:+ msg), after e [has; new; idx] w3) /\
  utility_drop_collection n ∉ [has; new; idx].
Proof.
  intros has new idx Hhas Hnew Hidx. split.
  - rewrite create_collection_cases. fold has new idx. by rewrite Hhas, Hnew, Hidx.
  - intros Hin. repeat (apply elem_of_cons in Hin as [Heq|Hin]; [done|]).
    by apply elem_of_nil in Hin.
Qed.

(** C4 (as amended).  On an existing collection whose handle opens,
    [insert] hands all ids and vectors to the backend insert and [upsert]
    to the backend upsert, for every list of records: the lengths of the
    vectors are not looked at.  The result is the backend's: its primary
    keys on return, "Failed to insert/upsert vectors: ..." when it raises. *)
Theorem insert_upsert_length_unchecked n (vectors : list VectorModel) e w1 w2 :
  let has := utility_has_collection n in
  let open := Collection n None in
  let ids := id <$> vectors in
  let data := vector <$> vectors in
  answer_bool has (vworld e) = (Returned true, w1) ->
  answer_unit open w1 = (Returned tt, w2) ->
  insert n vectors e
  = match answer_keys (Collection_insert n ids data) w2 with
    | (Returned primary_keys, w3) =>
        ((true, "Inserted " +:+ pretty (length vectors) +:+ " vectors successfully",
          primary_keys),
         after e [has; open; Collection_insert n ids data] w3)
    | (Raised msg, w3) =>
        ((false, "Failed to insert vectors: " +:+ msg, []),
         after e [has; open; Collection_insert n ids data] w3)
    end /\
  upsert n vectors e
  = match answer_keys (Collection_upsert n ids data) w2 with
    | (Returned primary_keys, w3) =>
        ((true, "Upserted " +:+ pretty (length vectors) +:+ " vectors successfully",
          primary_keys),
         after e [has; open; Collection_upsert n ids data] w3)
    | (Raised msg, w3) =>
        ((false, "Failed to upsert vectors: " +:+ msg, []),
         after e [has; open; Collection_upsert n ids data] w3)
    end.
Proof.
  intros has open ids data Hhas Hopen. split.
  - rewrite insert_cases. fold has open ids data. rewrite Hhas, Hopen.
    by destruct (answer_keys _ w2) as [[keys|msg] w3].
  - rewrite upsert_cases. fold has open ids data. rewrite Hhas, Hopen.
    by destruct (answer_keys _ w2) as [[keys|msg] w3].
Qed.

(** The conversion loop of [search] makes no backend call, and every result
    it builds carries the query vector or nothing. *)
Lemma for_each_search_result (q : list float) options hits e :
  match for_each (search_result q options) hits e with
  | (Returned rs, e') =>
      e' = e /\
      Forall (fun r => result_vector r
                       = if include_vector options then Some q else None) rs
  | (Raised _, e') => e' = e
  end.
Proof.
  induction hits as [|hit hits IH]; simpl; [by split|].
  unfold bind, search_result at 1. destruct (entity_id hit) as [i|]; simpl; [|done].
  destruct (for_each (search_result q options) hits e) as [[rs|msg] e1]; simpl; [|done].
  destruct IH as [-> IH]. split; [done|]. by constructor.
Qed.

(** C10.  In every successful [search], each result has the caller's query
    vector in its vector field when [include_vector] is set, whatever vector
    the store holds for that id, and has no vector when it is not set. *)
Theorem search_returns_query_vector n (q : list float) options e msg results e' :
  search n q options e = ((true, msg, results), e') ->
  (include_vector options = true ->
   forall r, r ∈ results -> result_vector r = Some q) /\
  (include_vector options = false ->
   forall r, r ∈ results -> result_vector r = None).
Proof.
  intros Hsearch.
  assert (Hall : Forall (fun r => result_vector r
                   = if include_vector options then Some q else None) results).
  { revert Hsearch. unfold search, try_except. rewrite bind_vcall.
    destruct (answer_bool _ (vworld e)) as [[[]|m0] w1]; cbn [negb]; [|done|done].
    rewrite bind_vcall. destruct (answer_unit _ _) as [[[]|m1] w2]; [|done].
    rewrite bind_vcall. destruct (answer_unit _ _) as [[[]|m2] w3]; [|done].
    rewrite bind_vcall. destruct (answer_hits _ _) as [[[|hits rest]|m3] w4];
      [done| |done].
    unfold bind.
    match goal with
    | |- context [for_each ?f hits ?e0] =>
        pose proof (for_each_search_result q options hits e0) as Hloop;
        destruct (for_each f hits e0) as [[rs|m4] e1]
    end; [|done].
    destruct Hloop as [_ Hloop]. by intros [= _ <- _]. }
  rewrite Forall_forall in Hall.
  split; intros Hflag r Hr; specialize (Hall r Hr); by rewrite Hflag in Hall.
Qed.
End VectorFacts.

(** *** The vector claims on a concrete store *)

(** C2 (the claim fails).  On an empty store, creating "c1" with a metric
    the store refuses for float vectors: the collection is created, the
    index call raises, and the operation returns the failure without any
    drop call; "c1" is left in the store with no index. *)
Lemma create_collection_leaves_orphan :
  let r := create_collection "c1" "" 128 hnsw_hamming fresh_store in
  r.1 = (false, "Failed to create collection: metric type HAMMING is not supported for float vectors") /\
  vcalls r.2 = [has_c1; new_c1 128; index_c1 hnsw_hamming] /\
  (utility_drop_collection "c1" ∉ vcalls r.2) /\
  vworld r.2 !! "c1" = Some (mkSimCollection 128 None []).
Proof.
  assert (Hcalls : vcalls (create_collection "c1" "" 128 hnsw_hamming fresh_store).2
                   = [has_c1; new_c1 128; index_c1 hnsw_hamming])
    by (vm_compute; reflexivity).
  cbv zeta. rewrite Hcalls.
  split; [vm_compute; reflexivity|]. split; [reflexivity|].
  split; [|vm_compute; reflexivity].
  intros Hin. repeat (apply elem_of_cons in Hin as [Heq|Hin]; [done|]).
  by apply elem_of_nil in Hin.
Qed.

Lemma create_collection_index_failure_witness :
  create_collection "c1" "" 128 hnsw_hamming fresh_store
  = ((false, "Failed to create collection: metric type HAMMING is not supported for float vectors"),
     after fresh_store [has_c1; new_c1 128; index_c1 hnsw_hamming]
           {["c1" := mkSimCollection 128 None []]}) /\
  (utility_drop_collection "c1" ∉ [has_c1; new_c1 128; index_c1 hnsw_hamming]).
Proof.
  apply (create_collection_index_failure "c1" "" 128 hnsw_hamming fresh_store
           ∅ {["c1" := mkSimCollection 128 None []]}
           {["c1" := mkSimCollection 128 None []]});
    vm_compute; reflexivity.
Defined.

(** C5 (the claim fails).  On an empty store, creating "c1" with dimension
    0 makes two backend calls, the second being the creation of the
    collection with dimension 0; the failure returned is the one the store
    raised, under the general "Failed to create collection" message. *)
Lemma create_collection_zero_dim_calls_backend :
  let r := create_collection "c1" "" 0 hnsw_l2 fresh_store in
  vcalls r.2 = [has_c1; new_c1 0] /\
  r.1 = (false, "Failed to create collection: invalid dimension: 0").
Proof. vm_compute. split; reflexivity. Qed.

Lemma create_collection_dimension_unchecked_witness :
  (-3 <= 0)%Z /\
  exists rest,
    vcalls (create_collection "c1" "" (-3) hnsw_l2 fresh_store).2
    = has_c1 :: new_c1 (-3) :: rest.
Proof.
  split; [lia|].
  apply (proj2 (create_collection_dimension_unchecked "c1" "" (-3) hnsw_l2
                  fresh_store ltac:(lia)) ∅).
  vm_compute. reflexivity.
Defined.

(** C4 (the claim fails).  The collection "c1" has dimension 2 and the one
    record has a vector of length 3: [insert] and [upsert] both reach the
    backend with that record, and the failure they return is the one the
    store raised. *)
Lemma insert_wrong_length_reaches_backend :
  let bad := [mkVector "v1" [1%float; 2%float; 3%float] None] in
  let r := insert "c1" bad store_c1 in
  let r' := upsert "c1" bad store_c1 in
  (sim_dim <$> vworld store_c1 !! "c1") = Some 2%Z /\
  (length ∘ vector <$> bad) = [3] /\
  vcalls r.2
  = [has_c1; open_c1; Collection_insert "c1" ["v1"] [[1%float; 2%float; 3%float]]] /\
  r.1 = (false, "Failed to insert vectors: the dimension of a vector does not match the collection", []) /\
  vcalls r'.2
  = [has_c1; open_c1; Collection_upsert "c1" ["v1"] [[1%float; 2%float; 3%float]]] /\
  r'.1 = (false, "Failed to upsert vectors: the dimension of a vector does not match the collection", []).
Proof. vm_compute. repeat split; reflexivity. Qed.

Lemma insert_upsert_length_unchecked_witness :
  let mixed := [mkVector "v1" [1%float; 2%float] None; mkVector "v2" [1%float] None] in
  vcalls (insert "c1" mixed store_c1).2
  = [has_c1; open_c1; Collection_insert "c1" ["v1"; "v2"] (vector <$> mixed)] /\
  vcalls (upsert "c1" mixed store_c1).2
  = [has_c1; open_c1; Collection_upsert "c1" ["v1"; "v2"] (vector <$> mixed)].
Proof.
  intros mixed.
  destruct (insert_upsert_length_unchecked "c1" mixed store_c1
              (vworld store_c1) (vworld store_c1)) as [Hins Hups];
    [vm_compute; reflexivity | vm_compute; reflexivity |].
  rewrite Hins, Hups. split; vm_compute; reflexivity.
Defined.

Lemma search_returns_query_vector_witness :
  let q := [0%float; 0%float] in
  let r := search "c1" q (mkSearchOptions 5 true None) store_c1_v1 in
  (sim_rows <$> vworld store_c1_v1 !! "c1") = Some [("v1", [1%float; 2%float])] /\
  r.1 = (true, "Found 1 results", [mkSearchResult "v1" 5%float (Some q) (Some ∅)]) /\
  forall x, x ∈ r.1.2 -> result_vector x = Some q.
Proof.
  intros q r. split; [vm_compute; reflexivity|]. split; [vm_compute; reflexivity|].
  assert (Hs : search "c1" q (mkSearchOptions 5 true None) store_c1_v1
               = ((true, r.1.1.2, r.1.2), r.2)) by (vm_compute; reflexivity).
  exact (proj1 (search_returns_query_vector "c1" q (mkSearchOptions 5 true None)
                  store_c1_v1 _ _ _ Hs) eq_refl).
Defined.

(** * Further properties of the model service *)

(** ** The registry methods *)

Lemma unregister_model_effect n s :
  (get_model n s = None ->
   unregister_model n s = ((false, "Model " +:+ n +:+ " not found"), s)) /\
  (is_Some (get_model n s) ->
   let s' := (unregister_model n s).2 in
   (unregister_model n s).1 = (true, "Model " +:+ n +:+ " unregistered successfully") /\
   get_model n s' = None /\
   is_model_loaded n s' = false /\
   (forall k, k <> n ->
      get_model k s' = get_model k s /\
      loaded_models s' !! k = loaded_models s !! k) /\
   PyDict.keys (models s') = filter (fun k => k <> n) (PyDict.keys (models s))).
Proof.
  unfold unregister_model, get_model. split.
  - intros Hnone. by rewrite (proj2 (mem_false_get n (models s)) Hnone).
  - intros Hsome. rewrite (proj2 (mem_get n (models s)) Hsome). cbn [negb].
    cbv zeta. rewrite guarded_unload. cbn [fst snd models set_models].
    rewrite unload_model_models.
    split; [done|]. split; [apply get_del_eq|]. split.
    + unfold is_model_loaded. cbn [loaded_models set_models].
      apply bool_decide_eq_false. rewrite unload_model_lookup. by intros [? ?].
    + split; [|apply keys_del].
      intros k Hk. split; [by apply get_del_ne|].
      cbn [loaded_models set_models]. by apply unload_model_lookup_ne.
Qed.

(** X3.  [unregister_model] of a name that is not registered fails with
    "not found" and changes nothing.  Of a registered name it succeeds:
    the descriptor and the handle of that name are gone, every other
    descriptor and handle is as before, and the other names keep their
    order. *)
Theorem unregister_model_removes n s :
  (get_model n s = None ->
   unregister_model n s = ((false, "Model " +:+ n +:+ " not found"), s)) /\
  (is_Some (get_model n s) ->
   let s' := (unregister_model n s).2 in
   (unregister_model n s).1 = (true, "Model " +:+ n +:+ " unregistered successfully") /\
   get_model n s' = None /\
   is_model_loaded n s' = false /\
   (forall k, k <> n ->
      get_model k s' = get_model k s /\
      loaded_models s' !! k = loaded_models s !! k) /\
   PyDict.keys (models s') = filter (fun k => k <> n) (PyDict.keys (models s))).
Proof. apply unregister_model_effect. Qed.

(** X4.  [unload_model] always reports success.  Afterwards the name has no
    handle, every other handle and the whole registry are as before, and a
    second [unload_model] finds the name "not loaded" and changes nothing. *)
Theorem unload_model_idempotent n s :
  let s' := (unload_model n s).2 in
  (unload_model n s).1.1 = true /\
  is_model_loaded n s' = false /\
  models s' = models s /\
  (forall k, k <> n -> loaded_models s' !! k = loaded_models s !! k) /\
  unload_model n s' = ((true, "Model " +:+ n +:+ " not loaded"), s').
Proof.
  intros s'. subst s'. split; [unfold unload_model; by destruct (_ !! _)|].
  split.
  { apply bool_decide_eq_false. rewrite unload_model_lookup. by intros [? ?]. }
  split; [apply unload_model_models|].
  split; [intros k Hk; by apply unload_model_lookup_ne|].
  pose proof (unload_model_lookup n s) as Hgone.
  unfold unload_model at 1. by rewrite Hgone.
Qed.

Section RegistryMore.
Context `{PyRuntime}.
Implicit Types (s : ModelService) (n : string).

(** X5.  [update_model] of a registered name assigns the provider first, if
    the request gives one, and succeeds exactly when the request gives no
    other field: then the handle of that name is gone and nothing else has
    changed.  Any other field the request gives is one the descriptor class
    lacks, so the update is refused with "Failed to update model: ..." for
    the first of them; the provider it had already assigned stays assigned
    and nothing is unloaded. *)
Theorem update_model_outcome r s c :
  get_model (upd_name r) s = Some c ->
  let n := upd_name r in
  let assigned := set_provider (default (provider c) (upd_provider r)) c in
  let s' := (update_model r s).2 in
  (get_model n s' = Some assigned /\
   forall k, k <> n -> get_model k s' = get_model k s) /\
  (update_refusal r = None ->
   (update_model r s).1 = (true, "Model " +:+ n +:+ " updated successfully") /\
   loaded_models s' !! n = None /\
   (forall k, k <> n -> loaded_models s' !! k = loaded_models s !! k)) /\
  (forall words, update_refusal r = Some words ->
   (update_model r s).1 = (false, "Failed to update model: " +:+ words) /\
   loaded_models s' = loaded_models s).
Proof.
  intros Hget n assigned s'. subst s'. rewrite update_model_cases, Hget.
  split; [|split].
  - destruct (update_refusal r); cbn [snd]; unfold get_model.
    + split; [by apply provider_assigned_get|].
      intros k Hk. by apply provider_assigned_get_ne.
    + rewrite unload_model_models. split; [by apply provider_assigned_get|].
      intros k Hk. by apply provider_assigned_get_ne.
  - intros ->. cbn [fst snd]. split; [done|]. split; [apply unload_model_lookup|].
    intros k Hk. rewrite unload_model_lookup_ne by done.
    by rewrite provider_assigned_loaded.
  - intros words ->. cbn [fst snd]. split; [done|]. apply provider_assigned_loaded.
Qed.

(** X7.  [get_default_model] never returns a descriptor.  On an empty
    registry it returns [None]; on any other it raises the attribute error
    of [config.model_type] at the first descriptor, whatever the type asked
    for, and that error reaches the caller. *)
Theorem get_default_model_outcome mtype s :
  (models s = PyDict.empty -> get_default_model mtype s = (Returned None, s)) /\
  (forall c, c ∈ list_models s ->
     get_default_model mtype s
     = (Raised (no_attribute "ModelConfigModel" "model_type"), s)) /\
  (forall c s', get_default_model mtype s <> (Returned (Some c), s')).
Proof.
  rewrite get_default_model_cases. unfold list_models. split; [|split].
  - by intros ->.
  - intros c Hc. destruct (PyDict.values (models s)); [|done].
    by apply elem_of_nil in Hc.
  - intros c s'. by destruct (PyDict.values (models s)).
Qed.
End RegistryMore.

(** ** The loader and the dispatchers *)

Section LoaderMore.
Context {W : Type} `{ProviderBackend W} `{PyRuntime}.
Implicit Types (e : MEnv W) (n : string) (s : ModelService).

(** X1.  Nothing ever happens to a fresh service.  After any sequence of
    register, update, unregister, load, unload, generate-text and
    generate-embedding operations the service object, the backend and the
    call log are what they were at construction: no descriptor is stored,
    no handle is cached and the provider is not called. *)
Theorem fresh_service_never_changes has_key (w : W) (ops : list Operation) :
  let e := run ops (initial has_key w) in
  svc e = init_model_service has_key /\ pworld e = w /\ pcalls e = [].
Proof. intros e. subst e. by rewrite run_initial. Qed.

(** X6.  The invariant of the handle cache is inductive: from every state
    in which each cached name is registered, not only from the fresh
    service, every sequence of operations leads to such a state. *)
Theorem cache_registered_preserved e (ops : list Operation) :
  dom (loaded_models (svc e))
    ⊆ (list_to_set (PyDict.keys (models (svc e))) : gset string) ->
  dom (loaded_models (svc (run ops e)))
    ⊆ (list_to_set (PyDict.keys (models (svc (run ops e)))) : gset string).
Proof.
  intros Hsub k Hk. apply elem_of_list_to_set, mem_keys.
  apply (cache_registered_run ops e); [|by apply elem_of_dom].
  intros k' Hk'. apply mem_keys. apply (elem_of_list_to_set (C:=gset string)).
  apply Hsub. by apply elem_of_dom.
Qed.

(** X8.  [load_model] of a registered name without handle, by the provider
    of its descriptor.  A local transformer model is refused with the
    attribute error of [config.model_type], before any library is called.
    An OpenAI model is stored as the handle "openai" when the client exists
    and refused with "OpenAI client not initialized" otherwise.  For every
    other provider the comparison with [ModelProvider.SENTENCE_TRANSFORMERS]
    raises, so the answer is "Failed to load model: ..." and never
    "Unsupported provider: ...". *)
Theorem load_model_outcome n e c :
  get_model n (svc e) = Some c ->
  is_model_loaded n (svc e) = false ->
  (provider c = HUGGINGFACE ->
   load_model n e
   = ((false, "Failed to load model: "
              +:+ no_attribute "ModelConfigModel" "model_type"), e)) /\
  (provider c = OPENAI ->
   load_model n e
   = if openai_client (svc e)
     then ((true, "Model " +:+ n +:+ " loaded successfully"),
           loaded_env e n OpenAIHandle)
     else ((false, "OpenAI client not initialized"), e)) /\
  (provider c = OLLAMA \/ provider c = CUSTOM ->
   load_model n e
   = ((false, "Failed to load model: "
              +:+ no_member "ModelProvider" "SENTENCE_TRANSFORMERS"), e)).
Proof.
  intros Hget Hl. rewrite load_model_cases, Hget, Hl. unfold load_refusal.
  split; [|split].
  - by intros ->.
  - intros ->. by destruct (openai_client (svc e)).
  - by intros [-> | ->].
Qed.

(** X9.  [load_model] never calls the provider backend and never touches
    the registry or the client: the backend, the call log, the descriptors
    and every handle but that of the name it is given are as before, and
    the handle of that name is as before or the string "openai". *)
Theorem load_model_frame n e :
  let e' := (load_model n e).2 in
  (pworld e' = pworld e /\ pcalls e' = pcalls e) /\
  (models (svc e') = models (svc e) /\ openai_client (svc e') = openai_client (svc e)) /\
  (forall k, k <> n -> loaded_models (svc e') !! k = loaded_models (svc e) !! k) /\
  (loaded_models (svc e') !! n = loaded_models (svc e) !! n \/
   loaded_models (svc e') !! n = Some OpenAIHandle).
Proof.
  intros e'. subst e'. destruct (load_model_env n e) as [->|[_ ->]].
  - split; [done|]. split; [done|]. split; [done|]. by left.
  - split; [done|]. split; [done|]. split.
    + intros k Hk. simpl. by rewrite lookup_insert_ne.
    + right. simpl. apply lookup_insert_eq.
Qed.

(** X11.  A request that names a model the registry does not hold is
    refused by both dispatchers with "Model ... not found"; nothing is
    loaded and the backend is not called. *)
Theorem dispatch_unknown_model e n :
  n <> "" ->
  get_model n (svc e) = None ->
  (forall request, text_model_name request = Some n ->
     generate_text request e = ((false, "Model " +:+ n +:+ " not found", None), e)) /\
  (forall request, embedding_model_name request = Some n ->
     generate_embedding request e
     = ((false, "Model " +:+ n +:+ " not found", None), e)).
Proof.
  intros Hn Hget.
  assert (Hgiven : given (Some n) = Some n) by (unfold given; by rewrite decide_False).
  split; intros request Hname.
  - by rewrite generate_text_cases, Hname, Hgiven, Hget.
  - by rewrite generate_embedding_cases, Hname, Hgiven, Hget.
Qed.

(** X12.  A dispatcher succeeds only for a local transformer model whose
    handle was already in the cache.  It then made exactly one backend
    call, with that handle, and its response carries what the backend
    returned: the text and token count for [generate_text], the vector and
    its length as dimension for [generate_embedding], under the name the
    request gave. *)
Theorem dispatch_success_shape e :
  (forall request msg response e',
     generate_text request e = ((true, msg, response), e') ->
     exists n c h text tokens w,
       given (text_model_name request) = Some n /\
       get_model n (svc e) = Some c /\ provider c = HUGGINGFACE /\
       loaded_models (svc e) !! n = Some h /\
       provider_generate (generate_with_huggingface h (prompt request)) request (pworld e)
       = (Returned (text, tokens), w) /\
       response = Some (mkTextResponse text n tokens "completed") /\
       msg = "Text generated successfully" /\
       e' = pafter e [generate_with_huggingface h (prompt request)] w) /\
  (forall request msg response e',
     generate_embedding request e = ((true, msg, response), e') ->
     exists n c h v w,
       given (embedding_model_name request) = Some n /\
       get_model n (svc e) = Some c /\ provider c = HUGGINGFACE /\
       loaded_models (svc e) !! n = Some h /\
       provider_embed (embed_with_huggingface h (embedding_text request)) (pworld e)
       = (Returned v, w) /\
       response = Some (mkEmbeddingResponse v n (Z.of_nat (length v))) /\
       msg = "Embedding generated successfully" /\
       e' = pafter e [embed_with_huggingface h (embedding_text request)] w).
Proof.
  split; intros request msg response e'.
  - rewrite generate_text_cases.
    destruct (given (text_model_name request)) as [n|];
      [|by destruct (PyDict.values (models (svc e)))].
    destruct (get_model n (svc e)) as [c|] eqn:Hget; [|done].
    destruct (loaded_models (svc e) !! n) as [h|] eqn:Hl.
    + unfold dispatch_text. destruct (provider c) eqn:Hp; try done.
      destruct (provider_generate _ _ _) as [[[text tokens]|m] w] eqn:Hcall; [|done].
      intros [= <- <- <-]. by exists n, c, h, text, tokens, w.
    + unfold load_refusal, dispatch_text.
      destruct (provider c); try done. by destruct (openai_client (svc e)).
  - rewrite generate_embedding_cases.
    destruct (given (embedding_model_name request)) as [n|];
      [|by destruct (PyDict.values (models (svc e)))].
    destruct (get_model n (svc e)) as [c|] eqn:Hget; [|done].
    destruct (loaded_models (svc e) !! n) as [h|] eqn:Hl.
    + unfold dispatch_embedding. destruct (provider c) eqn:Hp; try done.
      destruct (provider_embed _ _) as [[v|m] w] eqn:Hcall; [|done].
      intros [= <- <- <-]. by exists n, c, h, v, w.
    + unfold load_refusal, dispatch_embedding.
      destruct (provider c); try done. by destruct (openai_client (svc e)).
Qed.

(** X14.  On a registry that holds any descriptor, a request without model
    name does not get a default: the lookup raises, and the dispatchers
    answer "Failed to generate text: ..." and "Failed to generate
    embedding: ..." with the attribute error of [config.model_type], not
    "No default ... model available".  Nothing is loaded and the backend is
    not called. *)
Theorem dispatch_default_lookup_raises e c :
  c ∈ list_models (svc e) ->
  (forall request, given (text_model_name request) = None ->
     generate_text request e
     = ((false, "Failed to generate text: "
                +:+ no_attribute "ModelConfigModel" "model_type", None), e)) /\
  (forall request, given (embedding_model_name request) = None ->
     generate_embedding request e
     = ((false, "Failed to generate embedding: "
                +:+ no_attribute "ModelConfigModel" "model_type", None), e)).
Proof.
  unfold list_models. intros Hc.
  split; intros request Hgiven.
  - rewrite generate_text_cases, Hgiven.
    destruct (PyDict.values (models (svc e))); [by apply elem_of_nil in Hc | done].
  - rewrite generate_embedding_cases, Hgiven.
    destruct (PyDict.values (models (svc e))); [by apply elem_of_nil in Hc | done].
Qed.

(** X16.  For a registered model of the provider OLLAMA or CUSTOM without
    handle, both dispatchers return the loader's answer "Failed to load
    model: ..." with the error of the missing enumeration member; the
    backend is not called and nothing is stored. *)
Theorem dispatch_unsupported_provider e n c :
  n <> "" ->
  get_model n (svc e) = Some c ->
  provider c = OLLAMA \/ provider c = CUSTOM ->
  loaded_models (svc e) !! n = None ->
  let refused := "Failed to load model: "
                 +:+ no_member "ModelProvider" "SENTENCE_TRANSFORMERS" in
  (forall request, text_model_name request = Some n ->
     generate_text request e = ((false, refused, None), e)) /\
  (forall request, embedding_model_name request = Some n ->
     generate_embedding request e = ((false, refused, None), e)).
Proof.
  intros Hn Hget Hp Hl refused.
  assert (Hgiven : given (Some n) = Some n) by (unfold given; by rewrite decide_False).
  assert (Hr : load_refusal (provider c) (openai_client (svc e)) = Some refused)
    by (by destruct Hp as [-> | ->]).
  split; intros request Hname.
  - by rewrite generate_text_cases, Hname, Hgiven, Hget, Hl, Hr.
  - by rewrite generate_embedding_cases, Hname, Hgiven, Hget, Hl, Hr.
Qed.

(** X17.  A refused update can leave a handle that no longer fits its
    model.  When the request switches a loaded model to the local
    transformer provider and also gives a field the descriptor class lacks,
    [update_model] fails after the provider was assigned and before the
    unload; the old handle stays in the cache, and the next [generate_text]
    for that name hands it to the local transformer helper without a
    reload. *)
Theorem refused_update_leaves_stale_handle r e c h words :
  get_model (upd_name r) (svc e) = Some c ->
  loaded_models (svc e) !! upd_name r = Some h ->
  upd_provider r = Some HUGGINGFACE ->
  update_refusal r = Some words ->
  let n := upd_name r in
  let e' := set_svc (update_model r (svc e)).2 e in
  (update_model r (svc e)).1 = (false, "Failed to update model: " +:+ words) /\
  (provider <$> get_model n (svc e')) = Some HUGGINGFACE /\
  loaded_models (svc e') !! n = Some h /\
  (forall request, given (text_model_name request) = Some n ->
     pcalls (generate_text request e').2
     = (pcalls e ++ [generate_with_huggingface h (prompt request)])%list).
Proof.
  intros Hget Hl Hp Hr n e'. subst n e'. rewrite update_model_cases, Hget, Hr.
  cbn [fst snd svc set_svc].
  assert (Hdesc : get_model (upd_name r) (provider_assigned r (svc e))
                  = Some (set_provider HUGGINGFACE c)).
  { rewrite (provider_assigned_get r (svc e) c Hget). by rewrite Hp. }
  assert (Hkept : loaded_models (provider_assigned r (svc e)) !! upd_name r = Some h)
    by (by rewrite provider_assigned_loaded).
  split; [done|]. split; [by rewrite Hdesc|]. split; [exact Hkept|].
  intros request Hgiven. rewrite generate_text_cases, Hgiven.
  cbn [svc set_svc]. rewrite Hdesc, Hkept. unfold dispatch_text.
  cbn [provider set_provider pworld set_svc].
  by destruct (provider_generate _ _ _) as [[[text tokens]|m] w].
Qed.
End LoaderMore.

(** *** The further properties on concrete services *)

Lemma update_model_outcome_witness :
  let s := svc gpt35_loaded in
  (update_model gpt35_to_local_path s).1
  = (false, "Failed to update model: ModelConfigModel has no field model_path") /\
  (provider <$> get_model "gpt-3.5-turbo" (update_model gpt35_to_local_path s).2)
  = Some HUGGINGFACE /\
  loaded_models (update_model gpt35_to_local_path s).2 = loaded_models s.
Proof.
  intros s.
  assert (Hr : update_refusal gpt35_to_local_path
               = Some "ModelConfigModel has no field model_path") by reflexivity.
  destruct (update_model_outcome gpt35_to_local_path s gpt35_config eq_refl)
    as ((Hdesc & _) & _ & Hrefused).
  destruct (Hrefused _ Hr) as (Hmsg & Hcache).
  split; [exact Hmsg|]. split; [|exact Hcache].
  change (upd_name gpt35_to_local_path) with "gpt-3.5-turbo" in Hdesc.
  by rewrite Hdesc.
Defined.

Lemma cache_registered_preserved_witness :
  let ops := [Load "gpt-3.5-turbo"; Update gpt35_to_local_path;
              Register gpt35_request; Unregister "gpt-3.5-turbo"] in
  dom (loaded_models (svc (run ops gpt35_registered)))
    ⊆ (list_to_set (PyDict.keys (models (svc (run ops gpt35_registered))))
       : gset string).
Proof.
  intros ops. apply (cache_registered_preserved gpt35_registered ops).
  intros k Hk. simpl in Hk. by rewrite dom_empty in Hk.
Defined.

Lemma load_model_outcome_witness :
  load_model "local" local_registered
  = ((false, "Failed to load model: ModelProvider has no member SENTENCE_TRANSFORMERS"),
     local_registered).
Proof.
  destruct (load_model_outcome "local" local_registered local_config eq_refl eq_refl)
    as (_ & _ & Hother).
  apply Hother. by right.
Defined.

Lemma dispatch_unknown_model_witness :
  generate_text (mkTextRequest "hi" (Some "m1") 100 0.5%float 1%float)
    (initial true sim_hub)
  = ((false, "Model m1 not found", None), initial true sim_hub).
Proof.
  destruct (dispatch_unknown_model (initial true sim_hub) "m1") as [Htext _];
    [done | reflexivity |].
  by apply Htext.
Defined.

Lemma dispatch_default_lookup_raises_witness :
  generate_embedding (mkEmbeddingRequest "x" None) gpt35_registered
  = ((false,
      "Failed to generate embedding: ModelConfigModel has no attribute model_type",
      None), gpt35_registered).
Proof.
  destruct (dispatch_default_lookup_raises gpt35_registered gpt35_config) as [_ Hembed].
  - apply list_elem_of_singleton. reflexivity.
  - by apply Hembed.
Defined.

Lemma dispatch_unsupported_provider_witness :
  generate_text (mkTextRequest "hi" (Some "local") 100 0.5%float 1%float) local_registered
  = ((false, "Failed to load model: ModelProvider has no member SENTENCE_TRANSFORMERS",
      None), local_registered) /\
  generate_embedding (mkEmbeddingRequest "hi" (Some "local")) local_registered
  = ((false, "Failed to load model: ModelProvider has no member SENTENCE_TRANSFORMERS",
      None), local_registered).
Proof.
  destruct (dispatch_unsupported_provider local_registered "local" local_config)
    as [Htext Hembed]; [done | reflexivity | by right | reflexivity |].
  split; [by apply Htext | by apply Hembed].
Defined.

Lemma refused_update_leaves_stale_handle_witness :
  let e' := set_svc (update_model gpt35_to_local_path (svc gpt35_loaded)).2 gpt35_loaded in
  pcalls (generate_text (mkTextRequest "hi" (Some "gpt-3.5-turbo") 100 0.5%float 1%float)
            e').2
  = [generate_with_huggingface OpenAIHandle "hi"].
Proof.
  intros e'.
  assert (Hr : update_refusal gpt35_to_local_path
               = Some "ModelConfigModel has no field model_path") by reflexivity.
  assert (Hl : loaded_models (svc gpt35_loaded) !! upd_name gpt35_to_local_path
               = Some OpenAIHandle) by (vm_compute; reflexivity).
  destruct (refused_update_leaves_stale_handle gpt35_to_local_path gpt35_loaded
              gpt35_config OpenAIHandle _ eq_refl Hl eq_refl Hr) as (_ & _ & _ & Hnext).
  apply (Hnext (mkTextRequest "hi" (Some "gpt-3.5-turbo") 100 0.5%float 1%float)).
  reflexivity.
Defined.

Lemma dispatch_success_shape_witness :
  let request := mkEmbeddingRequest "hi" (Some "bert") in
  exists n c h v w,
    given (embedding_model_name request) = Some n /\
    get_model n (svc bert_cached) = Some c /\ provider c = HUGGINGFACE /\
    loaded_models (svc bert_cached) !! n = Some h /\
    provider_embed (embed_with_huggingface h (embedding_text request)) (pworld bert_cached)
    = (Returned v, w) /\
    Some (mkEmbeddingResponse [0%float; 1%float] "bert" 2)
    = Some (mkEmbeddingResponse v n (Z.of_nat (length v))) /\
    "Embedding generated successfully" = "Embedding generated successfully" /\
    pafter bert_cached [embed_with_huggingface (HFHandle 0 1) "hi"] sim_hub
    = pafter bert_cached [embed_with_huggingface h (embedding_text request)] w.
Proof.
  intros request.
  apply (proj2 (dispatch_success_shape bert_cached) request).
  vm_compute. reflexivity.
Defined.

(** * Further properties of the vector service *)

Section VectorGuards.
Context {W : Type} `{VectorStoreBackend W}.
Implicit Types (e : VEnv W) (n : string).

Lemma drop_collection_cases n e :
  let has := utility_has_collection n in
  let drop := utility_drop_collection n in
  drop_collection n e
  = match answer_bool has (vworld e) with
    | (Raised msg, w1) =>
        ((false, "Failed to drop collection: " +:+ msg), after e [has] w1)
    | (Returned false, w1) =>
        ((false, "Collection " +:+ n +:+ " does not exist"), after e [has] w1)
    | (Returned true, w1) =>
        match answer_unit drop w1 with
        | (Raised msg, w2) =>
            ((false, "Failed to drop collection: " +:+ msg), after e [has; drop] w2)
        | (Returned _, w2) =>
            ((true, "Collection " +:+ n +:+ " dropped successfully"),
             after e [has; drop] w2)
        end
    end.
Proof.
  intros has drop. unfold drop_collection, try_except. rewrite bind_vcall. fold has.
  destruct (answer_bool has (vworld e)) as [[[]|msg] w1]; cbn [negb]; [|done|done].
  rewrite bind_vcall. cbn [vworld after]. fold drop.
  destruct (answer_unit drop w1) as [[[]|msg] w2]; by rewrite ?after_after.
Qed.

Lemma search_missing n (q : list float) options e w1 :
  answer_bool (utility_has_collection n) (vworld e) = (Returned false, w1) ->
  search n q options e
  = ((false, "Collection " +:+ n +:+ " does not exist", []),
     after e [utility_has_collection n] w1).
Proof.
  intros Hhas. unfold search, try_except. rewrite bind_vcall. by rewrite Hhas.
Qed.

(** X18.  Every operation asks the store whether the collection exists
    before anything else.  When the answer is no, [drop_collection],
    [insert], [upsert] and [search] fail with "Collection ... does not
    exist" after that single call; when the answer is yes,
    [create_collection] fails with "already exists" after that single call.
    In both cases no collection is created, dropped, opened, loaded or
    written. *)
Theorem existence_guard n e :
  let has := utility_has_collection n in
  (forall w1, answer_bool has (vworld e) = (Returned false, w1) ->
     let refused := "Collection " +:+ n +:+ " does not exist" in
     drop_collection n e = ((false, refused), after e [has] w1) /\
     (forall vectors, insert n vectors e = ((false, refused, []), after e [has] w1)) /\
     (forall vectors, upsert n vectors e = ((false, refused, []), after e [has] w1)) /\
     (forall q options, search n q options e = ((false, refused, []), after e [has] w1))) /\
  (forall w1, answer_bool has (vworld e) = (Returned true, w1) ->
     forall description vector_dim index_params,
       create_collection n description vector_dim index_params e
       = ((false, "Collection " +:+ n +:+ " already exists"), after e [has] w1)).
Proof.
  intros has. split.
  - intros w1 Hhas refused. split; [|split; [|split]].
    + rewrite drop_collection_cases. fold has. by rewrite Hhas.
    + intros vectors. rewrite insert_cases. fold has. by rewrite Hhas.
    + intros vectors. rewrite upsert_cases. fold has. by rewrite Hhas.
    + intros q options. by apply search_missing.
  - intros w1 Hhas description vector_dim index_params.
    rewrite create_collection_cases. fold has. by rewrite Hhas.
Qed.

(** X19.  [drop_collection] drops only a collection the store has just
    reported as existing: the drop call is made exactly when the existence
    query answered yes, and the operation succeeds exactly when that call
    returned.  A missing collection is an error, never a silent success. *)
Theorem drop_collection_outcome n e :
  let has := utility_has_collection n in
  let drop := utility_drop_collection n in
  let r := drop_collection n e in
  (r.1.1 = true <->
   exists w1 w2, answer_bool has (vworld e) = (Returned true, w1) /\
                 answer_unit drop w1 = (Returned tt, w2)) /\
  (vcalls r.2 = (vcalls e ++ [has; drop])%list <->
   exists w1, answer_bool has (vworld e) = (Returned true, w1)) /\
  (vcalls r.2 = (vcalls e ++ [has; drop])%list \/
   vcalls r.2 = (vcalls e ++ [has])%list).
Proof.
  intros has drop r. subst r. rewrite drop_collection_cases. fold has drop.
  assert (Hshort : (vcalls e ++ [has])%list <> (vcalls e ++ [has; drop])%list).
  { intros Heq. apply app_inv_head in Heq. done. }
  assert (Hno : forall (o : Outcome bool) w1,
            o <> Returned true ->
            (false = true <->
             exists w0 w3 : W, (o, w1) = (Returned true, w0) /\
                               answer_unit drop w0 = (Returned tt, w3)) /\
            ((vcalls e ++ [has])%list = (vcalls e ++ [has; drop])%list <->
             exists w0 : W, (o, w1) = (Returned true, w0)) /\
            ((vcalls e ++ [has])%list = (vcalls e ++ [has; drop])%list \/
             (vcalls e ++ [has])%list = (vcalls e ++ [has])%list)).
  { intros o w1 Ho. split; [|split; [|by right]]; split; try done.
    - intros (w0 & w3 & [= -> _] & _). done.
    - intros (w0 & [= -> _]). done. }
  destruct (answer_bool has (vworld e)) as [[[]|msg] w1]; cbn [fst snd];
    [|by apply Hno|by apply Hno].
  destruct (answer_unit drop w1) as [[[]|msg] w2] eqn:Hdrop;
    cbn [fst snd vcalls after];
    (split; [|split; [|by left]]; split; try done).
  - intros _. by exists w1, w2.
  - intros _. by exists w1.
  - intros (w0 & w3 & [= <-] & Hd). congruence.
  - intros _. by exists w1.
Qed.

Lemma has_collection_cases n e :
  has_collection n e
  = match answer_bool (utility_has_collection n) (vworld e) with
    | (Returned b, w1) => (b, after e [utility_has_collection n] w1)
    | (Raised _, w1) => (false, after e [utility_has_collection n] w1)
    end.
Proof.
  unfold has_collection, try_except, vcall, after.
  by destruct (answer_bool _ (vworld e)) as [[b|msg] w1].
Qed.

(** The conversion loop of [search] keeps the hits in order, with their ids
    and scores, and gives every result an empty metadata map. *)
Lemma for_each_search_result_mirror (q : list float) options hits e :
  match for_each (search_result q options) hits e with
  | (Returned rs, e') =>
      e' = e /\
      entity_id <$> hits = Some ∘ result_id <$> rs /\
      score <$> hits = result_score <$> rs /\
      Forall (fun r => result_metadata r = Some ∅) rs
  | (Raised _, e') => e' = e
  end.
Proof.
  induction hits as [|hit hits IH]; simpl; [by repeat split|].
  unfold bind, search_result at 1. destruct (entity_id hit) as [i|] eqn:Hi; simpl; [|done].
  destruct (for_each (search_result q options) hits e) as [[rs|msg] e1]; simpl; [|done].
  destruct IH as (-> & Hids & Hscores & Hmeta).
  split; [done|]. split; [f_equal; exact Hids|]. split; [f_equal; exact Hscores|].
  by constructor.
Qed.

(** X20.  A successful [search] made exactly four backend calls: the
    existence query, the opening of the collection, its load, and one search
    for the single query vector on field "vector" with limit [topk] and the
    fixed parameters metric "L2" and nprobe 10, whatever the metric of the
    collection's index.  Its results are the first hit list of the answer,
    one for one and in order, with the hits' ids and scores and an empty
    metadata map, and the message counts them. *)
Theorem search_mirrors_hits n (q : list float) options e msg results e' :
  search n q options e = ((true, msg, results), e') ->
  let call := Collection_search n [q] "vector" (mkSearchParams "L2" 10) (topk options) in
  exists hits rest w3 w4,
    answer_hits call w3 = (Returned (hits :: rest), w4) /\
    e' = after e [utility_has_collection n; Collection n None; Collection_load n; call] w4 /\
    entity_id <$> hits = Some ∘ result_id <$> results /\
    score <$> hits = result_score <$> results /\
    Forall (fun r => result_metadata r = Some ∅) results /\
    msg = "Found " +:+ pretty (length hits) +:+ " results".
Proof.
  intros Hsearch call. revert Hsearch. unfold search, try_except. rewrite bind_vcall.
  destruct (answer_bool _ (vworld e)) as [[[]|m0] w1]; cbn [negb]; [|done|done].
  rewrite bind_vcall. cbn [vworld after].
  destruct (answer_unit _ w1) as [[[]|m1] w2]; [|done].
  rewrite bind_vcall. cbn [vworld after].
  destruct (answer_unit _ w2) as [[[]|m2] w3]; [|done].
  rewrite bind_vcall. cbn [vworld after]. fold call.
  destruct (answer_hits call w3) as [[[|hits rest]|m3] w4] eqn:Hhits; [done| |done].
  unfold bind.
  match goal with
  | |- context [for_each ?f hits ?e0] =>
      pose proof (for_each_search_result_mirror q options hits e0) as Hloop;
      destruct (for_each f hits e0) as [[rs|m4] e1]
  end; [|done].
  destruct Hloop as (-> & Hids & Hscores & Hmeta). intros [= <- <- <-].
  exists hits, rest, w3, w4. split; [done|]. split.
  { unfold after. cbn. by rewrite <- !app_assoc. }
  split; [done|]. split; [done|]. split; [done|].
  apply (f_equal length) in Hscores. rewrite !length_fmap in Hscores.
  by rewrite Hscores.
Qed.
End VectorGuards.

Lemma search_mirrors_hits_witness :
  let q := [0%float; 0%float] in
  let r := search "c1" q (mkSearchOptions 5 false None) store_c1_v1 in
  r.1.1 = (true, "Found 1 results") /\
  (result_id <$> r.1.2) = ["v1"] /\
  vcalls r.2 = [has_c1; open_c1; Collection_load "c1";
                Collection_search "c1" [q] "vector" (mkSearchParams "L2" 10) 5].
Proof.
  intros q r.
  assert (Hs : search "c1" q (mkSearchOptions 5 false None) store_c1_v1
               = ((true, r.1.1.2, r.1.2), r.2)) by (vm_compute; reflexivity).
  destruct (search_mirrors_hits "c1" q (mkSearchOptions 5 false None)
              store_c1_v1 _ _ _ Hs) as (hits & rest & w3 & w4 & _ & Henv & _).
  split; [vm_compute; reflexivity|]. split; [vm_compute; reflexivity|].
  rewrite Henv. reflexivity.
Defined.

(** ** Index, deletion, query and maintenance methods *)

Section AdminFacts.
Context {W : Type} `{VectorStoreAdmin W}.
Implicit Types (e : AEnv W) (n : string).

Lemma bind_bcall {A B : Type} (c : VectorCall)
    (answer : VectorCall -> W -> Outcome A * W) (k : A -> Prog (AEnv W) B) e :
  bind (bcall c answer) k e
  = match answer c (astore e) with
    | (Returned a, w) => k a (aafter e [inl c] w)
    | (Raised msg, w) => (Raised msg, aafter e [inl c] w)
    end.
Proof. unfold bind, bcall. by destruct (answer c (astore e)) as [[a|msg] w]. Qed.

Lemma bind_acall {A B : Type} (c : AdminCall)
    (answer : AdminCall -> W -> Outcome A * W) (k : A -> Prog (AEnv W) B) e :
  bind (acall c answer) k e
  = match answer c (astore e) with
    | (Returned a, w) => k a (aafter e [inr c] w)
    | (Raised msg, w) => (Raised msg, aafter e [inr c] w)
    end.
Proof. unfold bind, acall. by destruct (answer c (astore e)) as [[a|msg] w]. Qed.

Lemma aafter_aafter e cs cs' w w' :
  aafter (aafter e cs w) cs' w' = aafter e (cs ++ cs') w'.
Proof. unfold aafter. simpl. by rewrite app_assoc. Qed.

(** X21.  The index, deletion, query and maintenance methods ask the store
    whether the collection exists before anything else.  When the answer is
    no, [create_index], [drop_index], [delete], [get_by_id] and [compact]
    fail with "Collection ... does not exist", [has_index] answers [False]
    and [get_collection_stats] answers [None], all after that single call:
    nothing is opened, loaded, indexed, deleted or compacted. *)
Theorem admin_existence_guard n e w1 :
  answer_bool (utility_has_collection n) (astore e) = (Returned false, w1) ->
  let refused := "Collection " +:+ n +:+ " does not exist" in
  let e1 := aafter e [probe n] w1 in
  (forall index_params, create_index n index_params e = ((false, refused), e1)) /\
  drop_index n e = ((false, refused), e1) /\
  (forall ids, delete n ids e = ((false, refused), e1)) /\
  (forall i, get_by_id n i e = ((false, refused, None), e1)) /\
  compact n e = ((false, refused), e1) /\
  has_index n e = (false, e1) /\
  get_collection_stats n e = (None, e1).
Proof.
  intros Hhas refused e1.
  repeat split; intros;
    unfold create_index, drop_index, delete, get_by_id, compact, has_index,
      get_collection_stats, try_except;
    rewrite bind_bcall; by rewrite Hhas.
Qed.

(** X22.  One index per collection: on an existing collection that opens,
    [create_index] first asks whether there is an index and, if so, fails
    with "already has an index" without calling the index creation;
    [drop_index] fails with "has no index" without calling the index removal
    when there is none.  Otherwise each makes its one call and succeeds
    exactly when that call returns. *)
Theorem index_guards n index_params e w1 w2 w3 (indexed : bool) :
  answer_bool (utility_has_collection n) (astore e) = (Returned true, w1) ->
  answer_unit (Collection n None) w1 = (Returned tt, w2) ->
  admin_bool (Collection_has_index n) w2 = (Returned indexed, w3) ->
  let asked := [probe n; opened n; inr (Collection_has_index n)] in
  let build := Collection_create_index n "vector" (index_params_dict index_params) in
  create_index n index_params e
  = (if indexed then
       ((false, "Collection " +:+ n +:+ " already has an index"), aafter e asked w3)
     else
       match answer_unit build w3 with
       | (Returned _, w4) =>
           ((true, "Index created successfully for collection " +:+ n),
            aafter e (asked ++ [inl build]) w4)
       | (Raised msg, w4) =>
           ((false, "Failed to create index: " +:+ msg),
            aafter e (asked ++ [inl build]) w4)
       end) /\
  drop_index n e
  = (if indexed then
       match admin_unit (Collection_drop_index n) w3 with
       | (Returned _, w4) =>
           ((true, "Index dropped successfully for collection " +:+ n),
            aafter e (asked ++ [inr (Collection_drop_index n)]) w4)
       | (Raised msg, w4) =>
           ((false, "Failed to drop index: " +:+ msg),
            aafter e (asked ++ [inr (Collection_drop_index n)]) w4)
       end
     else ((false, "Collection " +:+ n +:+ " has no index"), aafter e asked w3)).
Proof.
  intros Hhas Hopen Hidx asked build. split.
  - unfold create_index, try_except. rewrite bind_bcall, Hhas. cbn [negb].
    rewrite bind_bcall. cbn [astore aafter]. rewrite Hopen.
    rewrite bind_acall. cbn [astore aafter]. rewrite Hidx.
    rewrite !aafter_aafter. destruct indexed; [done|].
    rewrite bind_bcall. cbn [astore aafter]. fold build.
    destruct (answer_unit build w3) as [[[]|msg] w4]; by rewrite ?aafter_aafter.
  - unfold drop_index, try_except. rewrite bind_bcall, Hhas. cbn [negb].
    rewrite bind_bcall. cbn [astore aafter]. rewrite Hopen.
    rewrite bind_acall. cbn [astore aafter]. rewrite Hidx.
    rewrite !aafter_aafter. destruct indexed; cbn [negb]; [|done].
    rewrite bind_acall. cbn [astore aafter].
    destruct (admin_unit _ w3) as [[[]|msg] w4]; by rewrite ?aafter_aafter.
Qed.

(** X23.  [get_by_id] asks for the rows of the expression [id == '<id>']
    with the output field "vector".  On success it made exactly four calls
    (existence, opening, load, query) and returns the vector of the first
    row under the id that was asked for, with an empty metadata map; an
    empty answer is the failure "Vector with ID ... not found"; and a
    failure never carries a vector. *)
Theorem get_by_id_outcome n i e :
  let query := Collection_query n (id_expr i) ["vector"] in
  let asked := [probe n; opened n; inl (Collection_load n); inr query] in
  (forall msg payload e',
     get_by_id n i e = ((true, msg, payload), e') ->
     exists v rows w3 w4,
       admin_rows query w3 = (Returned (mkRow (Some v) :: rows), w4) /\
       payload = Some (mkVector i v (Some ∅)) /\
       msg = "Retrieved vector with ID " +:+ i /\
       e' = aafter e asked w4) /\
  (forall w1 w2 w3 w4,
     answer_bool (utility_has_collection n) (astore e) = (Returned true, w1) ->
     answer_unit (Collection n None) w1 = (Returned tt, w2) ->
     answer_unit (Collection_load n) w2 = (Returned tt, w3) ->
     admin_rows query w3 = (Returned [], w4) ->
     get_by_id n i e
     = ((false, "Vector with ID " +:+ i +:+ " not found", None), aafter e asked w4)) /\
  (forall msg payload e',
     get_by_id n i e = ((false, msg, payload), e') -> payload = None).
Proof.
  intros query asked.
  assert (Hpaths : get_by_id n i e
    = match answer_bool (utility_has_collection n) (astore e) with
      | (Raised m, w1) =>
          ((false, "Failed to get vector by ID: " +:+ m, None), aafter e [probe n] w1)
      | (Returned false, w1) =>
          ((false, "Collection " +:+ n +:+ " does not exist", None),
           aafter e [probe n] w1)
      | (Returned true, w1) =>
          match answer_unit (Collection n None) w1 with
          | (Raised m, w2) =>
              ((false, "Failed to get vector by ID: " +:+ m, None),
               aafter e [probe n; opened n] w2)
          | (Returned _, w2) =>
              match answer_unit (Collection_load n) w2 with
              | (Raised m, w3) =>
                  ((false, "Failed to get vector by ID: " +:+ m, None),
                   aafter e [probe n; opened n; inl (Collection_load n)] w3)
              | (Returned _, w3) =>
                  match admin_rows query w3 with
                  | (Raised m, w4) =>
                      ((false, "Failed to get vector by ID: " +:+ m, None),
                       aafter e asked w4)
                  | (Returned [], w4) =>
                      ((false, "Vector with ID " +:+ i +:+ " not found", None),
                       aafter e asked w4)
                  | (Returned (mkRow None :: _), w4) =>
                      ((false, "Failed to get vector by ID: 'vector'", None),
                       aafter e asked w4)
                  | (Returned (mkRow (Some v) :: _), w4) =>
                      ((true, "Retrieved vector with ID " +:+ i,
                        Some (mkVector i v (Some ∅))), aafter e asked w4)
                  end
              end
          end
      end).
  { unfold get_by_id, try_except. rewrite bind_bcall.
    destruct (answer_bool _ (astore e)) as [[[]|m] w1]; cbn [negb]; [|done|done].
    rewrite bind_bcall. cbn [astore aafter].
    destruct (answer_unit _ w1) as [[[]|m] w2]; rewrite ?aafter_aafter; [|done].
    rewrite bind_bcall. cbn [astore aafter].
    destruct (answer_unit _ w2) as [[[]|m] w3]; rewrite ?aafter_aafter; [|done].
    rewrite bind_acall. cbn [astore aafter]. fold query.
    destruct (admin_rows query w3) as [[[|[[v|]] rows]|m] w4];
      by rewrite ?aafter_aafter. }
  split; [|split].
  - intros msg payload e'. rewrite Hpaths.
    destruct (answer_bool _ (astore e)) as [[[]|m] w1]; [|done|done].
    destruct (answer_unit _ w1) as [[[]|m] w2]; [|done].
    destruct (answer_unit _ w2) as [[[]|m] w3]; [|done].
    destruct (admin_rows query w3) as [[[|[[v|]] rows]|m] w4] eqn:Hrows; try done.
    intros [= <- <- <-]. by exists v, rows, w3, w4.
  - intros w1 w2 w3 w4 Hhas Hopen Hload Hrows.
    by rewrite Hpaths, Hhas, Hopen, Hload, Hrows.
  - intros msg payload e'. rewrite Hpaths.
    destruct (answer_bool _ (astore e)) as [[[]|m] w1]; try by intros [= _ <- _].
    destruct (answer_unit _ w1) as [[[]|m] w2]; try by intros [= _ <- _].
    destruct (answer_unit _ w2) as [[[]|m] w3]; try by intros [= _ <- _].
    destruct (admin_rows query w3) as [[[|[[v|]] rows]|m] w4];
      by intros [= _ <- _].
Qed.

(** X24.  [delete] on an existing collection that opens hands the whole id
    list to the store's delete, whether or not the ids exist and also when
    the list is empty, and when that call returns it reports success with
    the number of ids that were asked for, not the number removed. *)
Theorem delete_reports_requested n ids e w1 w2 :
  answer_bool (utility_has_collection n) (astore e) = (Returned true, w1) ->
  answer_unit (Collection n None) w1 = (Returned tt, w2) ->
  let call := inr (Collection_delete n ids) in
  delete n ids e
  = match admin_unit (Collection_delete n ids) w2 with
    | (Returned _, w3) =>
        ((true, "Deleted " +:+ pretty (length ids) +:+ " vectors successfully"),
         aafter e [probe n; opened n; call] w3)
    | (Raised msg, w3) =>
        ((false, "Failed to delete vectors: " +:+ msg),
         aafter e [probe n; opened n; call] w3)
    end.
Proof.
  intros Hhas Hopen call. unfold delete, try_except.
  rewrite bind_bcall, Hhas. cbn [negb].
  rewrite bind_bcall. cbn [astore aafter]. rewrite Hopen.
  rewrite bind_acall. cbn [astore aafter].
  destruct (admin_unit _ w2) as [[[]|msg] w3]; by rewrite ?aafter_aafter.
Qed.

(** X25.  A successful [get_collection_stats] made exactly five calls
    (existence, opening, load, entity count, dimension of the second schema
    field), names the collection that was asked for, reports the entity
    count as the vector count, and estimates the size as count times
    dimension times four bytes. *)
Theorem get_collection_stats_estimate n e stats e' :
  get_collection_stats n e = (Some stats, e') ->
  exists count vector_dim w3 w4 w5,
    admin_int (Collection_num_entities n) w3 = (Returned count, w4) /\
    admin_int (Collection_schema_dim n) w4 = (Returned vector_dim, w5) /\
    stats = mkStats n count (count * vector_dim * 4) /\
    e' = aafter e [probe n; opened n; inl (Collection_load n);
                   inr (Collection_num_entities n); inr (Collection_schema_dim n)] w5.
Proof.
  unfold get_collection_stats, try_except. rewrite bind_bcall.
  destruct (answer_bool _ (astore e)) as [[[]|m] w1]; cbn [negb]; [|done|done].
  rewrite bind_bcall. cbn [astore aafter].
  destruct (answer_unit _ w1) as [[[]|m] w2]; [|done].
  rewrite bind_bcall. cbn [astore aafter].
  destruct (answer_unit _ w2) as [[[]|m] w3]; [|done].
  rewrite bind_acall. cbn [astore aafter].
  destruct (admin_int _ w3) as [[count|m] w4] eqn:Hcount; [|done].
  rewrite bind_acall. cbn [astore aafter].
  destruct (admin_int _ w4) as [[vector_dim|m] w5] eqn:Hdim; [|done].
  rewrite !aafter_aafter. intros [= <- <-].
  by exists count, vector_dim, w3, w4, w5.
Qed.

(** X26.  The three probes never raise and answer the negative on any
    failure: [has_collection] is [True] exactly when the store answered
    [True] to its one call; [has_index] is [True] exactly when the
    collection exists, opens and the store says it has an index;
    [list_collections] always makes its one call and gives [[]] when the
    call raises. *)
Theorem probes_swallow_failures n (v : VEnv W) e :
  (forall v',
     has_collection n v = (true, v') <->
     exists w1, answer_bool (utility_has_collection n) (vworld v) = (Returned true, w1) /\
                v' = after v [utility_has_collection n] w1) /\
  (forall e',
     has_index n e = (true, e') <->
     exists w1 w2 w3,
       answer_bool (utility_has_collection n) (astore e) = (Returned true, w1) /\
       answer_unit (Collection n None) w1 = (Returned tt, w2) /\
       admin_bool (Collection_has_index n) w2 = (Returned true, w3) /\
       e' = aafter e [probe n; opened n; inr (Collection_has_index n)] w3) /\
  list_collections e
  = match admin_names utility_list_collections (astore e) with
    | (Returned names, w1) => (names, aafter e [inr utility_list_collections] w1)
    | (Raised _, w1) => ([], aafter e [inr utility_list_collections] w1)
    end.
Proof.
  split; [|split].
  - intros v'. unfold has_collection, try_except, vcall, after.
    destruct (answer_bool _ (vworld v)) as [[[]|m] w1]; split.
    + intros [= <-]. by exists w1.
    + by intros (w & [= <-] & ->).
    + done.
    + by intros (w & [=] & _).
    + done.
    + by intros (w & [=] & _).
  - intros e'. unfold has_index, try_except. rewrite bind_bcall.
    destruct (answer_bool _ (astore e)) as [[[]|m] w1]; cbn [negb];
      [|split; [done|by intros (?&?&?&[=]&_)]..].
    rewrite bind_bcall. cbn [astore aafter].
    destruct (answer_unit _ w1) as [[[]|m] w2] eqn:Hopen;
      [|split; [done|intros (?&?&?&[= <-]&?&_); congruence]].
    unfold acall. cbn [astore aafter _connected acalls].
    destruct (admin_bool _ w2) as [[[]|m] w3] eqn:Hidx; split;
      try done; try (intros (?&?&?&[= <-]&?&?&_); congruence).
    + intros [= <-]. exists w1, w2, w3.
      split; [done|]. split; [done|]. split; [done|].
      unfold aafter. cbn. by rewrite <- ?app_assoc.
    + intros (?&?&?&[= <-]&Ho&Hi&->).
      rewrite Hopen in Ho. injection Ho as <-.
      rewrite Hidx in Hi. injection Hi as <-.
      unfold aafter. cbn. by rewrite <- ?app_assoc.
  - unfold list_collections, try_except, acall, aafter.
    by destruct (admin_names _ (astore e)) as [[names|m] w1].
Qed.

(** X27.  The connection flag.  Constructing the service makes the one
    connection call and the service is connected exactly when that call
    returned.  [health_check] on a service that is not connected fails
    without calling the store; it answers "Healthy" exactly when the service
    is connected and the listing of collections returned. *)
Theorem health_check_outcome (w : W) e :
  acalls (init_vector_service w) = [inr connections_connect] /\
  (is_connected (init_vector_service w) = true <->
   exists w', admin_unit connections_connect w = (Returned tt, w')) /\
  (is_connected e = false ->
   health_check e = ((false, "Not connected to Milvus"), e)) /\
  (forall msg e',
     health_check e = ((true, msg), e') <->
     is_connected e = true /\ msg = "Healthy" /\
     exists names w',
       admin_names utility_list_collections (astore e) = (Returned names, w') /\
       e' = aafter e [inr utility_list_collections] w').
Proof.
  split; [|split; [|split]].
  - unfold init_vector_service, _connect, acall. cbn.
    by destruct (admin_unit connections_connect w) as [[[]|m] w'].
  - unfold init_vector_service, _connect, acall, is_connected. cbn.
    destruct (admin_unit connections_connect w) as [[[]|m] w']; cbn; split; try done.
    + intros _. by exists w'.
    + by intros (? & [=]).
  - unfold health_check, is_connected. by intros ->.
  - intros msg e'. unfold health_check, is_connected.
    destruct (_connected e) eqn:Hflag; cbn [negb].
    + unfold try_except. rewrite bind_acall.
      destruct (admin_names _ (astore e)) as [[names|m] w']; split.
      * intros [= <- <-]. split; [done|]. split; [done|]. by exists names, w'.
      * by intros (_ & -> & ? & ? & [= <- <-] & ->).
      * done.
      * by intros (_ & _ & ? & ? & [=] & _).
    + split; [done|]. by intros [[=] _].
Qed.

Lemma flag_blind_ret {A : Type} (a : A) : flag_blind (@ret (AEnv W) A a).
Proof. by intros b w l. Qed.

Lemma flag_blind_bcall {A : Type} c (answer : VectorCall -> W -> Outcome A * W) :
  flag_blind (bcall c answer).
Proof. intros b w l. unfold bcall. cbn. by destruct (answer c w). Qed.

Lemma flag_blind_acall {A : Type} c (answer : AdminCall -> W -> Outcome A * W) :
  flag_blind (acall c answer).
Proof. intros b w l. unfold acall. cbn. by destruct (answer c w). Qed.

Lemma flag_blind_bind {A B : Type} (m : Prog (AEnv W) A) (k : A -> Prog (AEnv W) B) :
  flag_blind m -> (forall a, flag_blind (k a)) -> flag_blind (bind m k).
Proof.
  intros Hm Hk b w l. unfold bind. rewrite (Hm b w l).
  pose proof (Hm false w l) as Hfalse.
  destruct (m (mkAEnv false w l)) as [[a|msg] [b1 w1 l1]]; cbn in *.
  - injection Hfalse as ->. apply Hk.
  - done.
Qed.

Lemma flag_blind_try_except {A : Type} (body : Prog (AEnv W) A) handler :
  flag_blind body -> flag_blind (try_except body handler).
Proof.
  intros Hbody b w l. unfold try_except. rewrite (Hbody b w l).
  by destruct (body (mkAEnv false w l)) as [[a|msg] e1].
Qed.

Lemma flag_blind_if {R : Type} (c : bool) (f g : AEnv W -> R * AEnv W) :
  flag_blind f -> flag_blind g -> flag_blind (if c then f else g).
Proof. by destruct c. Qed.

(** X28.  Only [health_check] consults the connection flag.  The index,
    deletion, query, maintenance and probing methods call the store whether
    or not the service is connected: on a service whose flag is set they
    return what they return on an unconnected one, make the same calls, and
    leave the flag as it was. *)
Theorem connection_flag_ignored n :
  (forall index_params, flag_blind (create_index n index_params)) /\
  flag_blind (drop_index n) /\
  flag_blind (has_index n) /\
  (forall ids, flag_blind (delete n ids)) /\
  (forall i, flag_blind (get_by_id n i)) /\
  flag_blind (compact n) /\
  flag_blind (get_collection_stats n) /\
  flag_blind list_collections.
Proof.
  assert (Hraise : forall A msg, flag_blind (@raise (AEnv W) A msg)) by done.
  repeat split; intros;
    unfold create_index, drop_index, has_index, delete, get_by_id, compact,
      get_collection_stats, list_collections;
    repeat first
      [ apply flag_blind_try_except
      | apply flag_blind_bind; [|intros ?]
      | apply flag_blind_bcall
      | apply flag_blind_acall
      | apply flag_blind_ret
      | apply Hraise
      | apply flag_blind_if
      | match goal with
        | |- flag_blind (match ?x with _ => _ end) => destruct x
        end ].
Qed.
End AdminFacts.

Lemma admin_existence_guard_witness :
  drop_index "c1" service_empty
  = ((false, "Collection c1 does not exist"), mkAEnv true ∅ [probe "c1"]) /\
  get_collection_stats "c1" service_empty = (None, mkAEnv true ∅ [probe "c1"]).
Proof.
  destruct (admin_existence_guard "c1" service_empty ∅)
    as (_ & Hdrop & _ & _ & _ & _ & Hstats); [vm_compute; reflexivity|].
  split; [exact Hdrop | exact Hstats].
Defined.

Lemma index_guards_witness :
  (create_index "c1" hnsw_l2 service_c1).1
  = (false, "Collection c1 already has an index") /\
  (drop_index "c1" service_c1).1
  = (true, "Index dropped successfully for collection c1").
Proof.
  destruct (index_guards "c1" hnsw_l2 service_c1 (vworld store_c1) (vworld store_c1)
              (vworld store_c1) true) as [Hcreate Hdrop];
    [vm_compute; reflexivity ..|].
  rewrite Hcreate, Hdrop. split; [reflexivity | vm_compute; reflexivity].
Defined.

Lemma delete_reports_requested_witness :
  (delete "c1" ["v1"; "v9"] service_c1_v1).1 = (true, "Deleted 2 vectors successfully").
Proof.
  rewrite (delete_reports_requested "c1" ["v1"; "v9"] service_c1_v1
             (vworld store_c1_v1) (vworld store_c1_v1));
    vm_compute; reflexivity.
Defined.

Lemma get_collection_stats_estimate_witness :
  (get_collection_stats "c1" service_c1_v1).1 = Some (mkStats "c1" 1 8) /\
  length (acalls (get_collection_stats "c1" service_c1_v1).2) = 5.
Proof.
  assert (Hstats : get_collection_stats "c1" service_c1_v1
                   = (Some (mkStats "c1" 1 8),
                      (get_collection_stats "c1" service_c1_v1).2))
    by (vm_compute; reflexivity).
  destruct (get_collection_stats_estimate "c1" service_c1_v1 _ _ Hstats)
    as (count & vector_dim & w3 & w4 & w5 & _ & _ & _ & Henv).
  split; [vm_compute; reflexivity|]. rewrite Henv. reflexivity.
Defined.

(** X29.  The index parameters reach the store as the dictionary of the
    enumerations' string values and the params map, and that dictionary
    determines them: no two index or metric types share a value, so
    different parameters are never sent as the same dictionary. *)
Theorem index_params_dict_faithful (p p' : IndexParamsModel) :
  index_params_dict p = index_params_dict p' <-> p = p'.
Proof.
  split; [|by intros ->].
  destruct p as [t m ps], p' as [t' m' ps']. unfold index_params_dict. cbn.
  intros [= Ht Hm ->]. f_equal.
  - by destruct t, t'.
  - by destruct m, m'.
Qed.
